(** * Student Management System: validation, store and import reconciliation

    A shallow embedding of [models.py], [db.py] and the pure parts of
    [utils.py], followed by the properties of the specification that concern
    them.  Python strings are sequences of Unicode code points, exceptions are
    an explicit result type, the SQLite file is an explicit store value that
    every [Database] method takes and returns. *)

From Stdlib Require Import ZArith NArith String Ascii List Lia Bool.
From stdpp Require Import base option list gmap sets strings pretty sorting.

Local Open Scope N_scope.

(** ** Python [str] *)

Module pystr.

(** A [str] is a list of code points. *)
Abbreviation codepoint := N (only parsing).
Abbreviation str := (list N) (only parsing).

(** A source literal: the code points of an ASCII string literal. *)
Definition lit (s : string) : str := N_of_ascii <$> list_ascii_of_string s.

(** [str(n)] for a non-negative integer. *)
Definition str_of_nat (n : nat) : str := lit (pretty n).

(** [c * n] for a one-character string [c]. *)
Definition repeat_char (c : string) (n : nat) : str := mjoin (replicate n (lit c)).

(** [sep.join(parts)]. *)
Fixpoint join (sep : str) (parts : list str) : str :=
  match parts with
  | [] => []
  | [p] => p
  | p :: rest => p ++ sep ++ join sep rest
  end.

(** *** Character data

    [isspace] is Python's [str.isspace] on one code point (the characters
    [str.strip] removes and the class [\s] matches); the list is the complete
    one of the Unicode character database. *)
Definition isspace (c : codepoint) : bool :=
  ((9 <=? c) && (c <=? 13)) || ((28 <=? c) && (c <=? 32))
  || (c =? 0x85) || (c =? 0xA0) || (c =? 0x1680)
  || ((0x2000 <=? c) && (c <=? 0x200A))
  || (c =? 0x2028) || (c =? 0x2029) || (c =? 0x202F) || (c =? 0x205F)
  || (c =? 0x3000).

Definition is_ascii (c : codepoint) : bool := c <? 128.
Definition is_ascii_upper (c : codepoint) : bool := (65 <=? c) && (c <=? 90).
Definition is_ascii_lower (c : codepoint) : bool := (97 <=? c) && (c <=? 122).

(** The case tables are complete on the ASCII range.  Beyond it they list
    U+01F0 (LATIN SMALL LETTER J WITH CARON, whose upper- and title-case
    mapping is the pair U+004A U+030C); every other code point is taken as
    uncased and unchanged, which is what the tables say of U+030C (COMBINING
    CARON) but not of every character.  Statements below that depend on a
    case mapping are therefore made for ASCII strings, or for the listed
    characters. *)
Definition is_cased (c : codepoint) : bool :=
  is_ascii_upper c || is_ascii_lower c || (c =? 0x1F0).

Definition to_lower_full (c : codepoint) : str :=
  if is_ascii_upper c then [c + 32] else [c].

Definition to_upper_full (c : codepoint) : str :=
  if is_ascii_lower c then [c - 32]
  else if c =? 0x1F0 then [0x4A; 0x30C]
  else [c].

Definition to_title_full (c : codepoint) : str := to_upper_full c.

(** *** [str] methods *)

(** [s.lstrip()], [s.rstrip()], [s.strip()]. *)
Fixpoint lstrip (s : str) : str :=
  match s with
  | c :: s' => if isspace c then lstrip s' else s
  | [] => []
  end.

Definition rstrip (s : str) : str := reverse (lstrip (reverse s)).

Definition strip (s : str) : str := rstrip (lstrip s).

(** [s.upper()], [s.lower()]: the full case mapping of every character. *)
Definition upper (s : str) : str := s ≫= to_upper_full.
Definition lower (s : str) : str := s ≫= to_lower_full.

(** [s.title()]: a character is title-cased when the character before it is
    not cased, lower-cased when it is ([previous_is_cased] in CPython). *)
Fixpoint title_from (previous_is_cased : bool) (s : str) : str :=
  match s with
  | [] => []
  | c :: s' =>
      (if previous_is_cased then to_lower_full c else to_title_full c)
        ++ title_from (is_cased c) s'
  end.

Definition title (s : str) : str := title_from false s.

(** Truth value of a string: [not s] is [is_empty s]. *)
Definition is_empty (s : str) : bool :=
  match s with [] => true | _ => false end.

(** *** Regular expressions

    The fragment of [re] the patterns of [models.py] use: character classes,
    concatenation, [?], [+], [{m,n}], [{m,}], between [^] and [$].  Matching
    is by derivatives. *)
Inductive regex : Type :=
| Void : regex
| Eps : regex
| Class (p : codepoint → bool) : regex
| Cat (r1 r2 : regex) : regex
| Alt (r1 r2 : regex) : regex
| Star (r : regex) : regex.

Fixpoint nullable (r : regex) : bool :=
  match r with
  | Void => false
  | Eps => true
  | Class _ => false
  | Cat r1 r2 => nullable r1 && nullable r2
  | Alt r1 r2 => nullable r1 || nullable r2
  | Star _ => true
  end.

Fixpoint deriv (c : codepoint) (r : regex) : regex :=
  match r with
  | Void => Void
  | Eps => Void
  | Class p => if p c then Eps else Void
  | Cat r1 r2 =>
      if nullable r1 then Alt (Cat (deriv c r1) r2) (deriv c r2)
      else Cat (deriv c r1) r2
  | Alt r1 r2 => Alt (deriv c r1) (deriv c r2)
  | Star r1 => Cat (deriv c r1) (Star r1)
  end.

Fixpoint fullmatch (r : regex) (s : str) : bool :=
  match s with
  | [] => nullable r
  | c :: s' => fullmatch (deriv c r) s'
  end.

Definition Opt (r : regex) : regex := Alt Eps r.
Definition Plus (r : regex) : regex := Cat r (Star r).

(** [r{n}], [r{m,n}] (as [r{m}] followed by [n - m] optional copies) and
    [r{m,}]. *)
Fixpoint Times (n : nat) (r : regex) : regex :=
  match n with O => Eps | S n' => Cat r (Times n' r) end.
Fixpoint UpTo (n : nat) (r : regex) : regex :=
  match n with O => Eps | S n' => Opt (Cat r (UpTo n' r)) end.
Definition Between (m n : nat) (r : regex) : regex :=
  Cat (Times m r) (UpTo (n - m) r).
Definition AtLeast (m : nat) (r : regex) : regex := Cat (Times m r) (Star r).

(** Truth value of [re.match('^' r '$', s)]: without [re.MULTILINE], [^]
    holds at the start only and [$] at the end or just before a newline that
    ends the string. *)
Definition re_match (r : regex) (s : str) : bool :=
  fullmatch r s
  || match reverse s with
     | 10 :: s' => fullmatch r (reverse s')
     | _ => false
     end.

(** Character classes. *)
Definition in_range (lo hi : string) (c : codepoint) : bool :=
  match lit lo, lit hi with
  | [l], [h] => (l <=? c) && (c <=? h)
  | _, _ => false
  end.
Definition one_of (cs : string) (c : codepoint) : bool :=
  bool_decide (c ∈ lit cs).

(** Lexicographic order of two strings by code point ([<=] on [str]). *)
Fixpoint str_le (a b : str) : bool :=
  match a, b with
  | [], _ => true
  | _ :: _, [] => false
  | x :: a', y :: b' => (x <? y) || ((x =? y) && str_le a' b')
  end.

End pystr.
Export pystr.

(** ** Exceptions

    The two exception classes the code raises, and the outcome of a call: a
    value, or a raised exception. *)
Inductive exn : Type :=
| ValueError (msg : str)
| Exception (msg : str).

Inductive result (A : Type) : Type :=
| Ok (a : A)
| Raise (e : exn).
Arguments Ok {A} a.
Arguments Raise {A} e.

(** Sequencing: the statements after a call run only when it returns. *)
Global Instance result_ret : MRet result := λ A a, Ok a.
Global Instance result_bind : MBind result := λ A B k m,
  match m with
  | Ok a => k a
  | Raise e => Raise e
  end.

(** ** models.py *)

Module Student.

Record t : Type := mk {
  _id : option Z;
  _name : str;
  _roll : str;
  _department : str;
  _email : str;
  _phone : str
}.

(** [r'^[A-Z0-9\-_]+$'] *)
Definition roll_pattern : regex :=
  Plus (Class (λ c, in_range "A" "Z" c || in_range "0" "9" c || one_of "-_" c)).

(** [r'^[a-zA-Z0-9._%+-]+@[a-zA-Z0-9.-]+\.[a-zA-Z]{2,}$'] *)
Definition email_pattern : regex :=
  Cat (Plus (Class (λ c, in_range "a" "z" c || in_range "A" "Z" c
                         || in_range "0" "9" c || one_of "._%+-" c)))
 (Cat (Class (one_of "@"))
 (Cat (Plus (Class (λ c, in_range "a" "z" c || in_range "A" "Z" c
                         || in_range "0" "9" c || one_of ".-" c)))
 (Cat (Class (one_of "."))
      (AtLeast 2 (Class (λ c, in_range "a" "z" c || in_range "A" "Z" c)))))).

(** [r'^[\+]?[0-9\s\-\(\)]{7,15}$'] *)
Definition phone_pattern : regex :=
  Cat (Opt (Class (one_of "+")))
      (Between 7 15 (Class (λ c, in_range "0" "9" c || isspace c || one_of "-()" c))).

Definition _validate_name (name : str) : result str :=
  if is_empty name || is_empty (strip name) then
    Raise (ValueError (lit "Name cannot be empty"))
  else Ok (title (strip name)).

Definition _validate_roll (roll : str) : result str :=
  if is_empty roll || is_empty (strip roll) then
    Raise (ValueError (lit "Roll number cannot be empty"))
  else
    let roll := upper (strip roll) in
    if negb (re_match roll_pattern roll) then
      Raise (ValueError (lit
        "Roll number can only contain letters, numbers, hyphens, and underscores"))
    else Ok roll.

Definition _validate_department (department : str) : result str :=
  if is_empty department || is_empty (strip department) then
    Raise (ValueError (lit "Department cannot be empty"))
  else Ok (title (strip department)).

Definition _validate_email (email : str) : result str :=
  if is_empty email || is_empty (strip email) then
    Raise (ValueError (lit "Email cannot be empty"))
  else
    let email := lower (strip email) in
    if negb (re_match email_pattern email) then
      Raise (ValueError (lit "Invalid email format"))
    else Ok email.

Definition _validate_phone (phone : str) : result str :=
  if is_empty phone then Ok []
  else
    let phone := strip phone in
    if negb (re_match phone_pattern phone) then
      Raise (ValueError (lit "Invalid phone number format"))
    else Ok phone.

(** [Student(name, roll, department, email, phone, student_id)]: the five
    assignments of [__init__], in its order; the first validator that raises
    ends the construction. *)
Definition init (name roll department email phone : str)
    (student_id : option Z) : result t :=
  name' ← _validate_name name;
  roll' ← _validate_roll roll;
  department' ← _validate_department department;
  email' ← _validate_email email;
  phone' ← _validate_phone phone;
  Ok (mk student_id name' roll' department' email' phone').

(** The dictionary of [to_dict]: its six keys, always present. *)
Record dict : Type := mk_dict {
  d_id : option Z;
  d_name : str;
  d_roll : str;
  d_department : str;
  d_email : str;
  d_phone : str
}.


Definition from_dict (data : dict) : result t :=
  init (d_name data) (d_roll data) (d_department data) (d_email data)
       (d_phone data) (d_id data).

End Student.

Module User.

Record t : Type := mk {
  _id : option Z;
  _username : str;
  _password : str
}.

Definition _validate_username (username : str) : result str :=
  if is_empty username || is_empty (strip username) then
    Raise (ValueError (lit "Username cannot be empty"))
  else
    let username := strip username in
    if (length username <? 3)%nat then
      Raise (ValueError (lit "Username must be at least 3 characters long"))
    else Ok username.

Definition init (username password : str) (user_id : option Z) : result t :=
  username' ← _validate_username username;
  Ok (mk user_id username' password).

End User.

(** ** db.py

    The database file is a [store]: for each of the two tables, whether it
    exists and, when it does, its rows by [id] together with the largest
    [id] the table ever held (SQLite's record for [AUTOINCREMENT]).  A
    method of [Database] opens its own connection, so it is a function from
    the store before the call to its outcome and the store after it.
    [CURRENT_TIMESTAMP] is the parameter [now].  Values of [id] are SQLite
    integers, taken in [Z]. *)

Module Database.

Local Open Scope Z_scope.

Record student_row : Type := mk_student_row {
  col_name : str;
  col_roll : str;
  col_department : str;
  col_email : str;
  col_phone : str;
  col_created_at : str;
  col_updated_at : str
}.

Record user_row : Type := mk_user_row {
  col_username : str;
  col_password : str;
  col_user_created_at : str
}.

Record table (R : Type) : Type := mk_table {
  rows : gmap Z R;
  sequence : Z
}.
Arguments mk_table {R} rows sequence.
Arguments rows {R} t.
Arguments sequence {R} t.

Record store : Type := mk_store {
  students : option (table student_row);
  users : option (table user_row)
}.

(** *** SQL statements *)

Definition empty_table {R : Type} : table R := mk_table ∅ 0.

(** [CREATE TABLE IF NOT EXISTS]. *)
Definition create_table_if_not_exists {R : Type} (t : option (table R)) : table R :=
  default empty_table t.

(** [SELECT ... WHERE P] followed by [fetchone()], as a truth value. *)
Definition exists_row {R : Type} (P : Z → R → bool) (t : table R) : bool :=
  existsb (λ kr, P kr.1 kr.2) (map_to_list (rows t)).

(** [SELECT COUNT( * )]. *)
Definition count_rows {R : Type} (t : table R) : Z := Z.of_nat (size (rows t)).

Definition max_rowid {R : Type} (m : gmap Z R) : Z :=
  map_fold (λ k _ acc, Z.max k acc) 0 m.

(** [INSERT] into a table whose key is [INTEGER PRIMARY KEY AUTOINCREMENT]
    without giving the key: the new [id] is one more than the largest the
    table ever held.  Returns [lastrowid] and the table. *)
Definition insert_row {R : Type} (r : R) (t : table R) : Z * table R :=
  let rowid := Z.max (sequence t) (max_rowid (rows t)) + 1 in
  (rowid, mk_table (<[rowid := r]> (rows t)) rowid).

(** [UPDATE ... SET f WHERE P]: returns [rowcount] and the table. *)
Definition update_where {R : Type} (P : Z → R → bool) (f : R → R)
    (t : table R) : Z * table R :=
  (Z.of_nat (length (filter (λ kr, P kr.1 kr.2 = true) (map_to_list (rows t)))),
   mk_table (map_imap (λ k r, Some (if P k r then f r else r)) (rows t)) (sequence t)).

(** [DELETE ... WHERE P]: returns [rowcount] and the table. *)
Definition delete_where {R : Type} (P : Z → R → bool) (t : table R) : Z * table R :=
  (Z.of_nat (length (filter (λ kr, P kr.1 kr.2 = true) (map_to_list (rows t)))),
   mk_table (filter (λ kr, P kr.1 kr.2 = false) (rows t)) (sequence t)).

(** [id = ?] and [id != ?] with a parameter that may be [None]: a
    comparison with [NULL] is never true. *)
Definition id_eq (k : Z) (p : option Z) : bool :=
  match p with Some i => k =? i | None => false end.
Definition id_ne (k : Z) (p : option Z) : bool :=
  match p with Some i => negb (k =? i) | None => false end.

(** The [UNIQUE] constraints of [students], as SQLite checks them when a row
    is written: [None] when they hold, the text of the [sqlite3.Error]
    otherwise.  [self] is the row being rewritten, if any. *)
Definition students_unique_error (self : option Z) (roll email : str)
    (t : table student_row) : option str :=
  let other k := match self with Some i => negb (k =? i) | None => true end in
  if exists_row (λ k r, other k && bool_decide (col_roll r = roll)) t then
    Some (lit "UNIQUE constraint failed: students.roll")
  else if exists_row (λ k r, other k && bool_decide (col_email r = email)) t then
    Some (lit "UNIQUE constraint failed: students.email")
  else None.


(** *** Methods *)

Definition initialize_database (now : str) (db : store) : result unit * store :=
  let students' := create_table_if_not_exists (students db) in
  let users' := create_table_if_not_exists (users db) in
  (* Insert default admin user if no users exist *)
  if count_rows users' =? 0 then
    let users'' :=
      (insert_row (mk_user_row (lit "admin") (lit "admin123") now) users').2 in
    (Ok (), mk_store (Some students') (Some users''))
  else (Ok (), mk_store (Some students') (Some users')).

Definition add_student (now : str) (student : Student.t) (db : store)
    : result Z * store :=
  match students db with
  | None =>
      (Raise (Exception (lit "Failed to add student: no such table: students")), db)
  | Some tbl =>
      (* Check for duplicate roll number *)
      if exists_row (λ _ r, bool_decide (col_roll r = Student._roll student)) tbl then
        (Raise (Exception (lit "Student with roll number '"
                             ++ Student._roll student ++ lit "' already exists")), db)
      (* Check for duplicate email *)
      else if exists_row (λ _ r, bool_decide (col_email r = Student._email student)) tbl then
        (Raise (Exception (lit "Student with email '"
                             ++ Student._email student ++ lit "' already exists")), db)
      else
        match students_unique_error None (Student._roll student)
                (Student._email student) tbl with
        | Some e => (Raise (Exception (lit "Failed to add student: " ++ e)), db)
        | None =>
            let '(student_id, tbl') :=
              insert_row (mk_student_row (Student._name student)
                            (Student._roll student) (Student._department student)
                            (Student._email student) (Student._phone student)
                            now now) tbl in
            (Ok student_id, mk_store (Some tbl') (users db))
        end
  end.

Definition get_student (student_id : Z) (db : store) : result (option Student.t) :=
  match students db with
  | None => Raise (Exception (lit "Failed to get student: no such table: students"))
  | Some tbl =>
      match rows tbl !! student_id with
      | Some r =>
          s ← Student.from_dict
                (Student.mk_dict (Some student_id) (col_name r) (col_roll r)
                   (col_department r) (col_email r) (col_phone r));
          Ok (Some s)
      | None => Ok None
      end
  end.

Definition update_student (now : str) (student : Student.t) (db : store)
    : result bool * store :=
  match students db with
  | None =>
      (Raise (Exception (lit "Failed to update student: no such table: students")), db)
  | Some tbl =>
      (* Check if student exists *)
      if negb (exists_row (λ k _, id_eq k (Student._id student)) tbl) then
        (Raise (Exception (lit "Student not found")), db)
      (* Check for duplicate roll number (excluding current student) *)
      else if exists_row (λ k r, bool_decide (col_roll r = Student._roll student)
                                 && id_ne k (Student._id student)) tbl then
        (Raise (Exception (lit "Student with roll number '"
                             ++ Student._roll student ++ lit "' already exists")), db)
      (* Check for duplicate email (excluding current student) *)
      else if exists_row (λ k r, bool_decide (col_email r = Student._email student)
                                 && id_ne k (Student._id student)) tbl then
        (Raise (Exception (lit "Student with email '"
                             ++ Student._email student ++ lit "' already exists")), db)
      else
        match students_unique_error (Student._id student) (Student._roll student)
                (Student._email student) tbl with
        | Some e => (Raise (Exception (lit "Failed to update student: " ++ e)), db)
        | None =>
            let '(rowcount, tbl') :=
              update_where (λ k _, id_eq k (Student._id student))
                (λ r, mk_student_row (Student._name student)
                        (Student._roll student) (Student._department student)
                        (Student._email student) (Student._phone student)
                        (col_created_at r) now) tbl in
            (Ok (0 <? rowcount), mk_store (Some tbl') (users db))
        end
  end.

Definition delete_student (student_id : Z) (db : store) : result bool * store :=
  match students db with
  | None =>
      (Raise (Exception (lit "Failed to delete student: no such table: students")), db)
  | Some tbl =>
      let '(rowcount, tbl') := delete_where (λ k _, k =? student_id) tbl in
      (Ok (0 <? rowcount), mk_store (Some tbl') (users db))
  end.




(** *** Queries that return lists *)

(** A stable sort by insertion, for [ORDER BY]. *)
Fixpoint insert_ordered {A : Type} (le : A → A → bool) (x : A) (l : list A) : list A :=
  match l with
  | [] => [x]
  | y :: l' => if le x y then x :: l else y :: insert_ordered le x l'
  end.

Definition order_by {A : Type} (le : A → A → bool) (l : list A) : list A :=
  foldr (insert_ordered le) [] l.

(** The rows of a table as a scan yields them, by increasing [id]. *)
Definition scan {R : Type} (t : table R) : list (Z * R) :=
  order_by (λ a b, a.1 <=? b.1) (map_to_list (rows t)).


(** [dict(row)] for a row of [students]. *)
Definition row_dict (k : Z) (r : student_row) : Student.dict :=
  Student.mk_dict (Some k) (col_name r) (col_roll r) (col_department r)
    (col_email r) (col_phone r).









(** [SELECT DISTINCT department ... ORDER BY department]: each department
    once, in increasing order. *)
Fixpoint insert_distinct (x : str) (l : list str) : list str :=
  match l with
  | [] => [x]
  | y :: l' =>
      if bool_decide (x = y) then l
      else if str_le x y then x :: l
      else y :: insert_distinct x l'
  end.

Definition distinct_departments (tbl : table student_row) : list str :=
  foldr insert_distinct [] ((λ kr, col_department kr.2) <$> scan tbl).

Definition get_departments (db : store) : result (list str) :=
  match students db with
  | None => Raise (Exception (lit "Failed to get departments: no such table: students"))
  | Some tbl => Ok (distinct_departments tbl)
  end.

(** [GROUP BY department ORDER BY department] with [COUNT( * )]; the
    dictionary built from the rows keeps their order, its keys are distinct. *)
Definition get_student_count_by_department (db : store) : result (list (str * Z)) :=
  match students db with
  | None =>
      Raise (Exception (lit
        "Failed to get student count by department: no such table: students"))
  | Some tbl =>
      Ok ((λ d, (d, Z.of_nat (length (filter (λ kr, col_department kr.2 = d)
                                        (scan tbl)))))
            <$> distinct_departments tbl)
  end.

End Database.

(** ** utils.py *)

Module CSVHandler.

(** One element of [students_data]: a dictionary as
    [import_students_from_csv] builds it, with the keys [name], [roll],
    [department] and [email]; [phone] is read with [.get('phone', '')], so it
    may be absent. *)
Record csv_row : Type := mk_row {
  row_name : str;
  row_roll : str;
  row_department : str;
  row_email : str;
  row_phone : option str
}.

(** The three locals of [validate_csv_data] that the loop updates. *)
Record state : Type := mk_state {
  errors : list str;
  seen_rolls : gset str;
  seen_emails : gset str
}.

Definition row_prefix (i : nat) : str := lit "Row " ++ str_of_nat i ++ lit ": ".

(** The two duplicate checks that follow a successful construction. *)
Definition check_duplicates (i : nat) (student : Student.t) (st : state) : state :=
  let st :=
    if bool_decide (Student._roll student ∈ seen_rolls st) then
      mk_state (errors st ++ [row_prefix i ++ lit "Duplicate roll number '"
                                ++ Student._roll student ++ lit "' in import data"])
               (seen_rolls st) (seen_emails st)
    else mk_state (errors st) ({[Student._roll student]} ∪ seen_rolls st) (seen_emails st) in
  if bool_decide (Student._email student ∈ seen_emails st) then
    mk_state (errors st ++ [row_prefix i ++ lit "Duplicate email '"
                              ++ Student._email student ++ lit "' in import data"])
             (seen_rolls st) (seen_emails st)
  else mk_state (errors st) (seen_rolls st) ({[Student._email student]} ∪ seen_emails st).

(** The body of the loop: [except ValueError] handles that class only, any
    other exception leaves the function. *)
Definition validate_row (i : nat) (student_data : csv_row) (st : state) : result state :=
  match Student.init (row_name student_data) (row_roll student_data)
          (row_department student_data) (row_email student_data)
          (default [] (row_phone student_data)) None with
  | Ok student => Ok (check_duplicates i student st)
  | Raise (ValueError e) =>
      Ok (mk_state (errors st ++ [row_prefix i ++ e]) (seen_rolls st) (seen_emails st))
  | Raise e => Raise e
  end.

(** [for i, student_data in enumerate(students_data, start=i)]. *)
Fixpoint validate_rows (i : nat) (students_data : list csv_row) (st : state)
    : result state :=
  match students_data with
  | [] => Ok st
  | student_data :: rest =>
      st' ← validate_row i student_data st;
      validate_rows (S i) rest st'
  end.

Definition validate_csv_data (students_data : list csv_row) : result (list str) :=
  st ← validate_rows 1 students_data (mk_state [] ∅ ∅);
  Ok (errors st).

(** *** [import_students_from_csv]

    The part that follows the construction of the [csv.DictReader]: the
    reader is given by its [fieldnames] and by the dictionaries it yields,
    one per record, where a column that the record is too short to fill holds
    [None].  Choosing, opening and parsing the file are not modelled. *)

(** [row.get(key, '').strip()]: the value when the call returns, the text of
    the exception when the value is [None]. *)
Definition get_stripped (key : string) (row : gmap str (option str)) : str + str :=
  match row !! lit key with
  | None => inr (strip [])
  | Some (Some value) => inr (strip value)
  | Some None => inl (lit "'NoneType' object has no attribute 'strip'")
  end.

(** The body of the inner [try]: the cleaned row, or the text of the
    exception raised in it. *)
Definition clean_row (row_num : nat) (row : gmap str (option str)) : str + csv_row :=
  match get_stripped "Name" row with
  | inl e => inl e
  | inr name =>
  match get_stripped "Roll" row with
  | inl e => inl e
  | inr roll =>
  match get_stripped "Department" row with
  | inl e => inl e
  | inr department =>
  match get_stripped "Email" row with
  | inl e => inl e
  | inr email =>
  match get_stripped "Phone" row with
  | inl e => inl e
  | inr phone =>
      let required := lit "Row " ++ str_of_nat row_num ++ lit ": " in
      if is_empty name then inl (required ++ lit "Name is required")
      else if is_empty roll then inl (required ++ lit "Roll is required")
      else if is_empty department then inl (required ++ lit "Department is required")
      else if is_empty email then inl (required ++ lit "Email is required")
      else inr (mk_row name roll department email (Some phone))
  end end end end end.

(** [for row_num, row in enumerate(reader, start=row_num)], with the
    [except Exception] of the loop body. *)
Fixpoint clean_rows (row_num : nat) (rows : list (gmap str (option str)))
    : str + list csv_row :=
  match rows with
  | [] => inr []
  | row :: rest =>
      match clean_row row_num row with
      | inl e => inl (lit "Error in row " ++ str_of_nat row_num ++ lit ": " ++ e)
      | inr student_data =>
          match clean_rows (S row_num) rest with
          | inl e => inl e
          | inr students_data => inr (student_data :: students_data)
          end
      end
  end.

Definition required_columns : list str :=
  [lit "Name"; lit "Roll"; lit "Department"; lit "Email"].

Definition import_students_from_csv (fieldnames : list str)
    (rows : list (gmap str (option str))) : result (list csv_row) :=
  let missing_cols :=
    filter (λ col, col ∉ fieldnames) required_columns in
  if negb (bool_decide (missing_cols = [])) then
    Raise (Exception (lit "Failed to import CSV: Missing required columns: "
                        ++ join (lit ", ") missing_cols))
  else
    match clean_rows 2 rows with
    | inl e => Raise (Exception (lit "Failed to import CSV: " ++ e))
    | inr students_data => Ok students_data
    end.

End CSVHandler.

Module ReportGenerator.

(** [sorted(l, key=key)] on string keys: a stable sort. *)
Fixpoint insert_by {A : Type} (key : A → str) (x : A) (l : list A) : list A :=
  match l with
  | [] => [x]
  | y :: l' =>
      if str_le (key x) (key y) then x :: l else y :: insert_by key x l'
  end.

Definition sorted {A : Type} (key : A → str) (l : list A) : list A :=
  foldr (insert_by key) [] l.

(** The lines of one student in the department report. *)
Definition student_lines (student : Student.t) : list str :=
  [lit "  " ++ [0xE2; 0x20AC; 0xA2] ++ lit " " ++ Student._name student
     ++ lit " (" ++ Student._roll student ++ lit ")";
   lit "    Email: " ++ Student._email student]
  ++ (if negb (is_empty (Student._phone student)) then
        [lit "    Phone: " ++ Student._phone student]
      else [])
  ++ [lit ""].

(** [now] is the text of [datetime.now().strftime('%Y-%m-%d %H:%M:%S')]. *)
Definition generate_department_report (now : str) (students : list Student.t) : str :=
  if bool_decide (students = []) then lit "No students found."
  else
    (* Group students by department *)
    let departments : gmap str (list Student.t) :=
      foldl (λ departments student,
               <[Student._department student :=
                   default [] (departments !! Student._department student)
                     ++ [student]]> departments)
            ∅ students in
    let report :=
      [repeat_char "=" 60;
       lit "STUDENT MANAGEMENT SYSTEM - DEPARTMENT REPORT";
       repeat_char "=" 60;
       lit "Generated on: " ++ now;
       lit "Total Students: " ++ str_of_nat (length students);
       lit "Total Departments: " ++ str_of_nat (size departments);
       lit ""] in
    let report :=
      foldl (λ report department,
               let dept_students := default [] (departments !! department) in
               report
                 ++ [lit "DEPARTMENT: " ++ department;
                     repeat_char "-" 40;
                     lit "Number of Students: " ++ str_of_nat (length dept_students);
                     lit ""]
                 ++ (sorted Student._name dept_students ≫= student_lines))
            report (sorted (λ d, d) (map_to_list departments).*1) in
    join (lit (String "010" EmptyString)) report.

(** [format_percentage count total] is the text of
    [f"{(count / total) * 100:.1f}"], a floating-point computation that is
    left as a parameter. *)
Definition generate_summary_report (now : str)
    (format_percentage : nat → nat → str) (students : list Student.t) : str :=
  if bool_decide (students = []) then lit "No students found."
  else
    (* Calculate statistics *)
    let total_students := length students in
    let departments : gmap str nat :=
      foldl (λ departments student,
               <[Student._department student :=
                   (default 0 (departments !! Student._department student) + 1)%nat]>
                 departments)
            ∅ students in
    let report :=
      [repeat_char "=" 50;
       lit "STUDENT MANAGEMENT SYSTEM - SUMMARY REPORT";
       repeat_char "=" 50;
       lit "Generated on: " ++ now;
       lit "";
       lit "OVERVIEW:";
       lit "  Total Students: " ++ str_of_nat total_students;
       lit "  Total Departments: " ++ str_of_nat (size departments);
       lit "";
       lit "STUDENTS BY DEPARTMENT:";
       repeat_char "-" 30] in
    let report :=
      foldl (λ report department,
               let count := default 0%nat (departments !! department) in
               report
                 ++ [lit "  " ++ department ++ lit ": " ++ str_of_nat count
                       ++ lit " students ("
                       ++ format_percentage count total_students ++ lit "%)"])
            report (sorted (λ d, d) (map_to_list departments).*1) in
    join (lit (String "010" EmptyString)) report.

End ReportGenerator.

(** ** gui.py

    The handlers of the windows, without the widgets: a handler is a function
    of the text of the entry fields, of the answers to its dialogs and of the
    store; its outcome is the dialog it shows, or the callback it makes. *)

Module LoginWindow.

Inductive outcome : Type :=
| showerror (title message : str)
| on_login_success.


End LoginWindow.

Module StudentForm.

Inductive outcome : Type :=
| showerror (title message : str)
| on_save (student : Student.t).

(** [student_id] is [self.student.id] in an edit form and [None] in an add
    form. *)
Definition _save (name roll department email phone : str)
    (student_id : option Z) : outcome :=
  let name := strip name in
  let roll := strip roll in
  let department := strip department in
  let email := strip email in
  let phone := strip phone in
  if is_empty name then showerror (lit "Error") (lit "Name is required")
  else if is_empty roll then showerror (lit "Error") (lit "Roll number is required")
  else if is_empty department then showerror (lit "Error") (lit "Department is required")
  else if is_empty email then showerror (lit "Error") (lit "Email is required")
  else
    match Student.init name roll department email phone student_id with
    | Ok student => on_save student
    | Raise (ValueError e) => showerror (lit "Validation Error") e
    | Raise (Exception e) =>
        showerror (lit "Error") (lit "Failed to save student: " ++ e)
    end.

End StudentForm.

Module StudentManagementApp.

(** The loop of [_import_csv] that follows the confirmation: every row is
    constructed and added, a failure of either step is counted and the loop
    goes on.  [clock j] is the time at row [j]; the state is
    [(imported_count, error_count)] and the store. *)
Fixpoint import_loop (clock : nat → str) (j : nat)
    (students_data : list CSVHandler.csv_row) (counts : nat * nat)
    (db : Database.store) : (nat * nat) * Database.store :=
  match students_data with
  | [] => (counts, db)
  | student_data :: rest =>
      match Student.init (CSVHandler.row_name student_data)
              (CSVHandler.row_roll student_data)
              (CSVHandler.row_department student_data)
              (CSVHandler.row_email student_data)
              (default [] (CSVHandler.row_phone student_data)) None with
      | Ok student =>
          match Database.add_student (clock j) student db with
          | (Ok _, db') => import_loop clock (S j) rest (S counts.1, counts.2) db'
          | (Raise _, db') => import_loop clock (S j) rest (counts.1, S counts.2) db'
          end
      | Raise _ => import_loop clock (S j) rest (counts.1, S counts.2) db
      end
  end.

Inductive import_outcome : Type :=
| no_data
| validation_error (message : str)
| import_failed (message : str)
| cancelled
| import_complete (imported_count error_count : nat).

(** [_import_csv] once [import_students_from_csv] has returned
    [students_data]; [confirm] is the answer to "Import n students?". *)
Definition _import_csv (clock : nat → str) (students_data : list CSVHandler.csv_row)
    (confirm : bool) (db : Database.store) : import_outcome * Database.store :=
  if bool_decide (students_data = []) then (no_data, db)
  else
    match CSVHandler.validate_csv_data students_data with
    | Raise (ValueError e) | Raise (Exception e) =>
        (import_failed (lit "Import failed: " ++ e), db)
    | Ok errors =>
        if negb (bool_decide (errors = [])) then
          let error_msg :=
            lit "Validation errors found:" ++ [10; 10] ++ join [10] (take 10 errors) in
          let error_msg :=
            if (10 <? length errors)%nat then
              error_msg ++ [10] ++ lit "... and "
                ++ str_of_nat (length errors - 10) ++ lit " more errors"
            else error_msg in
          (validation_error error_msg, db)
        else if confirm then
          let '((imported_count, error_count), db') :=
            import_loop clock 0 students_data (0%nat, 0%nat) db in
          (import_complete imported_count error_count, db')
        else (cancelled, db)
    end.

End StudentManagementApp.

(** * Vocabulary of the properties *)

Section vocabulary.

Import Database CSVHandler.

(** ** Strings *)

(** The first character, if any, is not white space. *)
Definition head_ok (s : str) : Prop :=
  match s with
  | c :: _ => isspace c = false
  | [] => True
  end.

(** Every character is ASCII. *)
Definition ascii_str (s : str) : Prop := Forall (λ c, is_ascii c = true) s.

(** What the proofs below need of a case mapping [f] at a character [c]: it
    yields one ASCII character, white space and cased exactly when [c] is,
    that [f] leaves alone. *)
Definition char_stable (f : N → str) (c : N) : bool :=
  match f c with
  | [d] =>
      is_ascii d && Bool.eqb (isspace d) (isspace c)
      && Bool.eqb (is_cased d) (is_cased c) && bool_decide (f d = [d])
  | _ => false
  end.

(** A character of the title-cased string: lower case after a cased
    character, title case otherwise. *)
Definition title_char (previous_is_cased : bool) (c : N) : str :=
  if previous_is_cased then to_lower_full c else to_title_full c.

(** ** Validation *)

(** Each validator either returns or raises one [ValueError]. *)
Definition value_error_only {A : Type} (r : result A) : Prop :=
  match r with
  | Ok _ => True
  | Raise (ValueError _) => True
  | Raise (Exception _) => False
  end.




(** ** The store *)

(** Some persisted student has this roll, this email. *)
Definition roll_taken (tbl : table student_row) (roll : str) : Prop :=
  ∃ k r, rows tbl !! k = Some r ∧ col_roll r = roll.
Definition email_taken (tbl : table student_row) (email : str) : Prop :=
  ∃ k r, rows tbl !! k = Some r ∧ col_email r = email.

(** Some persisted student other than [i] has this roll, this email. *)
Definition roll_taken_by_other (tbl : table student_row) (i : Z) (roll : str) : Prop :=
  ∃ k r, k ≠ i ∧ rows tbl !! k = Some r ∧ col_roll r = roll.
Definition email_taken_by_other (tbl : table student_row) (i : Z) (email : str) : Prop :=
  ∃ k r, k ≠ i ∧ rows tbl !! k = Some r ∧ col_email r = email.


(** The row that [add_student] writes, and the one [update_student] writes
    over [old]. *)
Definition inserted_row (now : str) (st : Student.t) : student_row :=
  mk_student_row (Student._name st) (Student._roll st) (Student._department st)
    (Student._email st) (Student._phone st) now now.
Definition updated_row (now : str) (st : Student.t) (old : student_row) : student_row :=
  mk_student_row (Student._name st) (Student._roll st) (Student._department st)
    (Student._email st) (Student._phone st) (col_created_at old) now.




(** ** Batches *)

(** The student a row describes, or the reason there is none. *)
Definition row_student (row : csv_row) : result Student.t :=
  Student.init (row_name row) (row_roll row) (row_department row) (row_email row)
    (default [] (row_phone row)) None.

(** The students of the rows that pass validation, in row order. *)
Definition valid_students (rows : list csv_row) : list Student.t :=
  rows ≫= λ row, match row_student row with Ok s => [s] | Raise _ => [] end.

Definition duplicate_roll_error (i : nat) (s : Student.t) : str :=
  row_prefix i ++ lit "Duplicate roll number '" ++ Student._roll s
    ++ lit "' in import data".
Definition duplicate_email_error (i : nat) (s : Student.t) : str :=
  row_prefix i ++ lit "Duplicate email '" ++ Student._email s
    ++ lit "' in import data".

(** The error strings of row number [i], given the rows before it: the
    message of its failed validation, or else one string if its roll is the
    roll of an earlier valid row and one if its email is the email of an
    earlier valid row. *)
Definition row_errors (i : nat) (row : csv_row) (earlier : list csv_row) : list str :=
  match row_student row with
  | Raise (ValueError message) | Raise (Exception message) =>
      [row_prefix i ++ message]
  | Ok s =>
      (if bool_decide (Student._roll s ∈ Student._roll <$> valid_students earlier)
       then [duplicate_roll_error i s] else [])
      ++ (if bool_decide (Student._email s ∈ Student._email <$> valid_students earlier)
          then [duplicate_email_error i s] else [])
  end.

(** Row by row, counting from 1, each row against the rows before it. *)
Definition batch_row_errors (rows : list csv_row) : list (list str) :=
  imap (λ j row, row_errors (S j) row (take j rows)) rows.
Definition batch_errors (rows : list csv_row) : list str :=
  mjoin (batch_row_errors rows).

(** The rows that have at least one error string. *)
Definition offending_rows (rows : list csv_row) : nat :=
  length (filter (λ es, es ≠ []) (batch_row_errors rows)).

(** The same, as a recursion that carries the rows already seen. *)
Fixpoint row_errors_from (i : nat) (earlier rows : list csv_row) : list (list str) :=
  match rows with
  | [] => []
  | row :: rest =>
      row_errors i row earlier :: row_errors_from (S i) (earlier ++ [row]) rest
  end.

(** The two sets of the loop hold the rolls and emails of the valid rows
    seen so far. *)
Definition tracks (earlier : list csv_row) (st : state) : Prop :=
  (∀ x, x ∈ seen_rolls st ↔ x ∈ Student._roll <$> valid_students earlier)
  ∧ (∀ x, x ∈ seen_emails st ↔ x ∈ Student._email <$> valid_students earlier).

(** ** More on the store *)

(** A student with another [id]. *)
Definition with_id (student_id : option Z) (st : Student.t) : Student.t :=
  Student.mk student_id (Student._name st) (Student._roll st)
    (Student._department st) (Student._email st) (Student._phone st).


(** The student a stored row stands for, and the tables whose rows are what
    validation makes of them: reading such a row back gives that student. *)
Definition student_of_row (k : Z) (r : student_row) : Student.t :=
  Student.mk (Some k) (col_name r) (col_roll r) (col_department r)
    (col_email r) (col_phone r).
Definition rows_validated (tbl : table student_row) : Prop :=
  ∀ k r, rows tbl !! k = Some r →
         Student.from_dict (row_dict k r) = Ok (student_of_row k r).

(** Strictly increasing. *)
Definition str_lt (a b : str) : bool := str_le a b && negb (bool_decide (a = b)).



(** The rows of one department. *)
Definition department_rows (d : str) (l : list (Z * student_row)) : list (Z * student_row) :=
  filter (λ kr, col_department kr.2 = d) l.

(** A row as the import returns it: the four required fields stripped and
    not empty, the phone present and stripped. *)
Definition cleaned (student_data : csv_row) : Prop :=
  strip (row_name student_data) = row_name student_data ∧ row_name student_data ≠ []
  ∧ strip (row_roll student_data) = row_roll student_data ∧ row_roll student_data ≠ []
  ∧ strip (row_department student_data) = row_department student_data
  ∧ row_department student_data ≠ []
  ∧ strip (row_email student_data) = row_email student_data
  ∧ row_email student_data ≠ []
  ∧ ∃ phone, row_phone student_data = Some phone ∧ strip phone = phone.

(** One step of the counting loop of [generate_summary_report]. *)
Definition count_step (departments : gmap str nat) (student : Student.t) : gmap str nat :=
  <[Student._department student :=
      (default 0 (departments !! Student._department student) + 1)%nat]> departments.

(** ** Regular expressions *)

(** The strings a regular expression denotes. *)
Inductive matches : regex → str → Prop :=
| matches_eps : matches Eps []
| matches_class p c : p c = true → matches (Class p) [c]
| matches_cat r1 r2 s1 s2 :
    matches r1 s1 → matches r2 s2 → matches (Cat r1 r2) (s1 ++ s2)
| matches_alt_l r1 r2 s : matches r1 s → matches (Alt r1 r2) s
| matches_alt_r r1 r2 s : matches r2 s → matches (Alt r1 r2) s
| matches_star_nil r : matches (Star r) []
| matches_star_cons r s1 s2 :
    matches r s1 → matches (Star r) s2 → matches (Star r) (s1 ++ s2).

(** The characters of the three patterns. *)
Definition roll_char (c : N) : bool :=
  in_range "A" "Z" c || in_range "0" "9" c || one_of "-_" c.
Definition phone_char (c : N) : bool :=
  in_range "0" "9" c || isspace c || one_of "-()" c.
Definition email_local_char (c : N) : bool :=
  in_range "a" "z" c || in_range "A" "Z" c || in_range "0" "9" c || one_of "._%+-" c.
Definition email_domain_char (c : N) : bool :=
  in_range "a" "z" c || in_range "A" "Z" c || in_range "0" "9" c || one_of ".-" c.
Definition letter (c : N) : bool := in_range "a" "z" c || in_range "A" "Z" c.

End vocabulary.

(** Case analysis on the next [SELECT] of the goal. *)
Ltac case_select H :=
  match goal with
  | |- context [Database.exists_row ?P ?t] =>
      destruct (Database.exists_row P t) eqn:H
  end.

(** * Properties *)

(** ** Strings *)

Section strings.

Implicit Types (s : str) (c : N).

Lemma lstrip_head_ok s : head_ok (lstrip s).
Proof.
  induction s as [|c s IH]; simpl; [done|].
  destruct (isspace c) eqn:Hc; [done|]. simpl. done.
Qed.

Lemma lstrip_id s : head_ok s → lstrip s = s.
Proof. destruct s as [|c s]; simpl; [done|]. by intros ->. Qed.

Lemma lstrip_snoc s c : isspace c = false → lstrip (s ++ [c]) = lstrip s ++ [c].
Proof.
  intros Hc. induction s as [|d s IH]; simpl.
  - by rewrite Hc.
  - destruct (isspace d); [done|]. done.
Qed.

Lemma lstrip_spaces s : Forall (λ c, isspace c = true) s → lstrip s = [].
Proof. induction 1 as [|c s Hc _ IH]; simpl; [done|]. by rewrite Hc. Qed.

Lemma rstrip_cons c s : isspace c = false → rstrip (c :: s) = c :: rstrip s.
Proof.
  intros Hc. unfold rstrip. rewrite reverse_cons.
  rewrite lstrip_snoc by done. by rewrite reverse_snoc.
Qed.

Lemma rstrip_id s : head_ok (reverse s) → rstrip s = s.
Proof. intros H. unfold rstrip. rewrite lstrip_id by done. apply reverse_involutive. Qed.

Lemma strip_id s : head_ok s → head_ok (reverse s) → strip s = s.
Proof. intros H1 H2. unfold strip. rewrite lstrip_id by done. by apply rstrip_id. Qed.

Lemma strip_head_ok s : head_ok (strip s).
Proof.
  unfold strip. pose proof (lstrip_head_ok s) as H.
  destruct (lstrip s) as [|c t]; [done|]. simpl in H.
  by rewrite rstrip_cons.
Qed.

Lemma strip_last_ok s : head_ok (reverse (strip s)).
Proof. unfold strip, rstrip. rewrite reverse_involutive. apply lstrip_head_ok. Qed.

Lemma strip_idemp s : strip (strip s) = strip s.
Proof. apply strip_id; [apply strip_head_ok | apply strip_last_ok]. Qed.

Lemma strip_nil : strip [] = [].
Proof. reflexivity. Qed.

Lemma strip_spaces s : Forall (λ c, isspace c = true) s → strip s = [].
Proof. intros H. unfold strip. by rewrite lstrip_spaces. Qed.

(** Whether [strip] leaves a string alone depends only on which of its
    characters are white space. *)
Lemma head_ok_shape s1 s2 : isspace <$> s1 = isspace <$> s2 → head_ok s1 → head_ok s2.
Proof.
  destruct s1, s2; simpl; try done. intros [= H _]. by rewrite H.
Qed.

Lemma strip_id_shape s1 s2 :
  isspace <$> s1 = isspace <$> s2 → strip s1 = s1 → strip s2 = s2.
Proof.
  intros Hsh H1. apply strip_id.
  - apply (head_ok_shape s1); [done|]. rewrite <- H1. apply strip_head_ok.
  - apply (head_ok_shape (reverse s1)).
    + rewrite !fmap_reverse. by f_equal.
    + rewrite <- H1. apply strip_last_ok.
Qed.

End strings.

(** ** Case mappings on ASCII strings *)

Section ascii_case.

Implicit Types (s : str) (c : N).

Lemma ascii_forall (P : N → bool) :
  forallb P (N.of_nat <$> seq 0 128) = true → ∀ c, is_ascii c = true → P c = true.
Proof.
  intros H c Hc. rewrite forallb_forall in H. apply H.
  apply list_elem_of_In, list_elem_of_fmap. exists (N.to_nat c). split.
  - by rewrite N2Nat.id.
  - apply list_elem_of_In, in_seq. unfold is_ascii in Hc.
    apply N.ltb_lt in Hc. lia.
Qed.

Lemma upper_char_stable c : is_ascii c = true → char_stable to_upper_full c = true.
Proof. apply ascii_forall. vm_compute. reflexivity. Qed.

Lemma lower_char_stable c : is_ascii c = true → char_stable to_lower_full c = true.
Proof. apply ascii_forall. vm_compute. reflexivity. Qed.

Lemma char_stable_inv f c :
  char_stable f c = true →
  ∃ d, f c = [d] ∧ is_ascii d = true ∧ isspace d = isspace c
       ∧ is_cased d = is_cased c ∧ f d = [d].
Proof.
  unfold char_stable. destruct (f c) as [|d [|]]; try done.
  rewrite !andb_true_iff, !eqb_true_iff, bool_decide_eq_true.
  intros [[[? ?] ?] ?]. by exists d.
Qed.

Lemma title_char_stable b c : is_ascii c = true → char_stable (title_char b) c = true.
Proof. destruct b; [apply lower_char_stable | apply upper_char_stable]. Qed.

Section bind.

Variable f : N → str.
Hypothesis f_stable : ∀ c, is_ascii c = true → char_stable f c = true.

Lemma bind_shape s : ascii_str s → isspace <$> (s ≫= f) = isspace <$> s.
Proof.
  induction 1 as [|c s Hc _ IH]; [done|].
  destruct (char_stable_inv _ _ (f_stable c Hc)) as (d & Hd & _ & Hsp & _).
  cbn. rewrite Hd. cbn. by rewrite Hsp, IH.
Qed.

Lemma bind_idemp s : ascii_str s → (s ≫= f) ≫= f = s ≫= f.
Proof.
  induction 1 as [|c s Hc _ IH]; [done|].
  destruct (char_stable_inv _ _ (f_stable c Hc)) as (d & Hd & _ & _ & _ & Hdd).
  cbn. rewrite Hd. cbn. by rewrite Hdd, IH.
Qed.

End bind.

Lemma title_from_shape b s :
  ascii_str s → isspace <$> title_from b s = isspace <$> s.
Proof.
  intros H. revert b. induction H as [|c s Hc _ IH]; intros b; [done|].
  destruct (char_stable_inv _ _ (title_char_stable b c Hc)) as (d & Hd & _ & Hsp & _).
  unfold title_char in Hd. cbn. rewrite Hd. cbn. by rewrite Hsp, IH.
Qed.

Lemma title_from_idemp b s :
  ascii_str s → title_from b (title_from b s) = title_from b s.
Proof.
  intros H. revert b. induction H as [|c s Hc _ IH]; intros b; [done|].
  destruct (char_stable_inv _ _ (title_char_stable b c Hc))
    as (d & Hd & _ & _ & Hcased & Hdd).
  unfold title_char in Hd, Hdd. cbn. rewrite Hd. cbn. by rewrite Hdd, Hcased, IH.
Qed.

Lemma ascii_str_strip s : ascii_str s → ascii_str (strip s).
Proof.
  assert (Hl : ∀ t, ascii_str t → ascii_str (lstrip t)).
  { induction 1 as [|c t Hc Ht IH]; simpl; [constructor|].
    destruct (isspace c); [done | by constructor]. }
  intros H. unfold strip, rstrip, ascii_str.
  apply Forall_reverse, Hl, Forall_reverse, Hl, H.
Qed.

(** A mapping that keeps the white-space shape of a stripped, non-empty
    string yields a stripped, non-empty string. *)
Lemma stripped_shape s t :
  isspace <$> t = isspace <$> strip s → is_empty (strip s) = false →
  is_empty t || is_empty (strip t) = false ∧ strip t = t.
Proof.
  intros Hsh Hne.
  assert (Ht : strip t = t).
  { apply (strip_id_shape (strip s)); [done | apply strip_idemp]. }
  split; [|done]. rewrite Ht.
  destruct t; [|done]. by destruct (strip s).
Qed.

End ascii_case.

(** ** models.py: [Student] *)

Section student_validation.

Import Student.

Implicit Types (name roll department email phone : str).

Lemma is_empty_strip s : is_empty s || is_empty (strip s) = is_empty (strip s).
Proof. by destruct s. Qed.

Lemma validate_name_raises name : value_error_only (_validate_name name).
Proof. unfold _validate_name. by case_match. Qed.

Lemma validate_roll_raises roll : value_error_only (_validate_roll roll).
Proof. unfold _validate_roll. by repeat case_match. Qed.

Lemma validate_department_raises department :
  value_error_only (_validate_department department).
Proof. unfold _validate_department. by case_match. Qed.

Lemma validate_email_raises email : value_error_only (_validate_email email).
Proof. unfold _validate_email. by repeat case_match. Qed.

Lemma validate_phone_raises phone : value_error_only (_validate_phone phone).
Proof. unfold _validate_phone. by repeat case_match. Qed.

Lemma init_raises name roll department email phone student_id :
  value_error_only (init name roll department email phone student_id).
Proof.
  unfold init.
  pose proof (validate_name_raises name).
  pose proof (validate_roll_raises roll).
  pose proof (validate_department_raises department).
  pose proof (validate_email_raises email).
  pose proof (validate_phone_raises phone).
  destruct (_validate_name name); [|done].
  destruct (_validate_roll roll); [|done].
  destruct (_validate_department department); [|done].
  destruct (_validate_email email); [|done].
  by destruct (_validate_phone phone).
Qed.

(** The construction succeeds exactly when the five validators do. *)
Lemma init_ok name roll department email phone student_id st :
  init name roll department email phone student_id = Ok st ↔
  _validate_name name = Ok (_name st) ∧ _validate_roll roll = Ok (_roll st)
  ∧ _validate_department department = Ok (_department st)
  ∧ _validate_email email = Ok (_email st)
  ∧ _validate_phone phone = Ok (_phone st) ∧ _id st = student_id.
Proof.
  unfold init. split.
  - destruct (_validate_name name); [|done].
    destruct (_validate_roll roll); [|done].
    destruct (_validate_department department); [|done].
    destruct (_validate_email email); [|done].
    destruct (_validate_phone phone); [|done].
    cbn. by intros [= <-].
  - intros (-> & -> & -> & -> & -> & <-). cbn. by destruct st.
Qed.

(** Re-validation of a validated field, on ASCII input. *)
Lemma validate_name_again name n :
  ascii_str name → _validate_name name = Ok n → _validate_name n = Ok n.
Proof.
  unfold _validate_name. rewrite is_empty_strip. intros Ha.
  destruct (is_empty (strip name)) eqn:Hne; [done|]. intros [= <-].
  apply ascii_str_strip in Ha.
  destruct (stripped_shape name (title (strip name))) as [-> ->];
    [by apply title_from_shape | done |].
  unfold title. by rewrite title_from_idemp.
Qed.

Lemma validate_department_again department d :
  ascii_str department → _validate_department department = Ok d →
  _validate_department d = Ok d.
Proof.
  unfold _validate_department. rewrite is_empty_strip. intros Ha.
  destruct (is_empty (strip department)) eqn:Hne; [done|]. intros [= <-].
  apply ascii_str_strip in Ha.
  destruct (stripped_shape department (title (strip department))) as [-> ->];
    [by apply title_from_shape | done |].
  unfold title. by rewrite title_from_idemp.
Qed.

Lemma validate_roll_again roll r :
  ascii_str roll → _validate_roll roll = Ok r → _validate_roll r = Ok r.
Proof.
  unfold _validate_roll. rewrite is_empty_strip. intros Ha.
  destruct (is_empty (strip roll)) eqn:Hne; [done|]. cbn zeta.
  destruct (re_match roll_pattern (upper (strip roll))) eqn:Hm; [|done].
  intros [= <-]. apply ascii_str_strip in Ha.
  destruct (stripped_shape roll (upper (strip roll))) as [-> ->];
    [by apply bind_shape; [apply upper_char_stable|] | done |].
  unfold upper in *. rewrite bind_idemp by (apply upper_char_stable || done).
  by rewrite Hm.
Qed.

Lemma validate_email_again email e :
  ascii_str email → _validate_email email = Ok e → _validate_email e = Ok e.
Proof.
  unfold _validate_email. rewrite is_empty_strip. intros Ha.
  destruct (is_empty (strip email)) eqn:Hne; [done|]. cbn zeta.
  destruct (re_match email_pattern (lower (strip email))) eqn:Hm; [|done].
  intros [= <-]. apply ascii_str_strip in Ha.
  destruct (stripped_shape email (lower (strip email))) as [-> ->];
    [by apply bind_shape; [apply lower_char_stable|] | done |].
  unfold lower in *. rewrite bind_idemp by (apply lower_char_stable || done).
  by rewrite Hm.
Qed.

(** The phone needs no restriction: it is stripped, never case-mapped. *)
Lemma validate_phone_again phone p :
  _validate_phone phone = Ok p → _validate_phone p = Ok p.
Proof.
  unfold _validate_phone. destruct (is_empty phone); [by intros [= <-]|].
  cbn zeta. destruct (re_match phone_pattern (strip phone)) eqn:Hm; [|done].
  intros [= <-]. destruct (is_empty (strip phone)) eqn:He.
  - by destruct (strip phone).
  - cbn zeta. by rewrite strip_idemp, Hm.
Qed.

End student_validation.

(** *** Order of the checks *)


(** *** White-space phone numbers *)

(** C9: a phone number that is not empty and consists of white space only is
    rejected with the invalid-format message, although the empty string is
    accepted: the construction of a student with such a phone never
    succeeds, and raises that message whenever the four fields before it
    are valid. *)
Theorem whitespace_phone_rejected (phone : str) :
  phone ≠ [] → Forall (λ c, isspace c = true) phone →
  Student._validate_phone [] = Ok []
  ∧ strip phone = []
  ∧ Student._validate_phone phone
    = Raise (ValueError (lit "Invalid phone number format"))
  ∧ ∀ name roll department email student_id,
      (∀ st, Student.init name roll department email phone student_id ≠ Ok st)
      ∧ ∀ n r d e,
          Student._validate_name name = Ok n →
          Student._validate_roll roll = Ok r →
          Student._validate_department department = Ok d →
          Student._validate_email email = Ok e →
          Student.init name roll department email phone student_id
          = Raise (ValueError (lit "Invalid phone number format")).
Proof.
  intros Hne Hsp.
  assert (Hstrip : strip phone = []) by by apply strip_spaces.
  assert (Hphone : Student._validate_phone phone
                   = Raise (ValueError (lit "Invalid phone number format"))).
  { unfold Student._validate_phone. destruct phone; [done|]. cbn [is_empty].
    cbn zeta. by rewrite Hstrip. }
  split_and!; try done.
  intros name roll department email student_id. split.
  - intros st Hst. apply init_ok in Hst as (_ & _ & _ & _ & Hp & _).
    by rewrite Hphone in Hp.
  - intros n r d e Hn Hr Hd He. unfold Student.init.
    by rewrite Hn, Hr, Hd, He, Hphone.
Qed.

Lemma whitespace_phone_rejected_witness :
  lit "  " ≠ [] ∧ Forall (λ c, isspace c = true) (lit "  ")
  ∧ Student._validate_phone (lit "  ")
    = Raise (ValueError (lit "Invalid phone number format")).
Proof.
  assert (H1 : lit "  " ≠ []) by done.
  assert (H2 : Forall (λ c, isspace c = true) (lit "  "))
    by (repeat constructor).
  split_and!; [done..|].
  exact (proj1 (proj2 (proj2 (whitespace_phone_rejected (lit "  ") H1 H2)))).
Defined.

(** *** Re-validation *)




(** ** db.py: tables *)

Section tables.

Import Database.
Local Open Scope Z_scope.

Context {R : Type}.
Implicit Types (t : table R) (m : gmap Z R) (P : Z → R → bool).

Lemma exists_row_true P t :
  exists_row P t = true ↔ ∃ k r, rows t !! k = Some r ∧ P k r = true.
Proof.
  unfold exists_row. rewrite existsb_exists. split.
  - intros [[k r] [Hin HP]]. exists k, r. split; [|done].
    by apply elem_of_map_to_list, list_elem_of_In.
  - intros (k & r & Hl & HP). exists (k, r). split; [|done].
    by apply list_elem_of_In, elem_of_map_to_list.
Qed.

Lemma exists_row_false P t :
  exists_row P t = false ↔ ∀ k r, rows t !! k = Some r → P k r = false.
Proof.
  rewrite <- not_true_iff_false, exists_row_true. split.
  - intros H k r Hl. apply not_true_iff_false. intros HP. apply H. eauto.
  - intros H (k & r & Hl & HP). specialize (H k r Hl). congruence.
Qed.

(** [rowcount > 0] after a statement with [WHERE P]: some row satisfies [P]. *)
Lemma rowcount_positive P m :
  (0 <? Z.of_nat (length (filter (λ kr : Z * R, P kr.1 kr.2 = true) (map_to_list m))))
  = exists_row P (mk_table m 0).
Proof.
  unfold exists_row. cbn [rows]. induction (map_to_list m) as [|[k r] l IH]; [done|].
  rewrite filter_cons. cbn [existsb fst snd]. case_decide as HP.
  - rewrite HP. cbn [length orb]. apply Z.ltb_lt. lia.
  - apply not_true_is_false in HP. rewrite HP. cbn [orb]. exact IH.
Qed.



(** [UPDATE ... WHERE id = i] rewrites the row of key [i]. *)
Lemma update_where_id (f : R → R) (i : Z) (old : R) t :
  rows t !! i = Some old →
  update_where (λ k _, id_eq k (Some i)) f t
  = ((update_where (λ k _, id_eq k (Some i)) f t).1,
      mk_table (<[i := f old]> (rows t)) (sequence t))
  ∧ (0 <? (update_where (λ k _, id_eq k (Some i)) f t).1) = true.
Proof.
  intros Hold. split.
  - unfold update_where. cbn [fst]. do 2 f_equal.
    apply map_eq. intros k. rewrite map_lookup_imap. cbn [id_eq].
    destruct (decide (i = k)) as [<-|Hne].
    + rewrite lookup_insert_eq, Hold. cbn. by rewrite Z.eqb_refl.
    + rewrite lookup_insert_ne by done. destruct (rows t !! k) eqn:Hk; [|done].
      cbn. by rewrite (proj2 (Z.eqb_neq k i)) by done.
  - unfold update_where. cbn [fst].
    etrans; [apply (rowcount_positive (λ k _, id_eq k (Some i)))|].
    apply exists_row_true. exists i, old. cbn [rows id_eq].
    by rewrite Z.eqb_refl.
Qed.

(** [DELETE ... WHERE id = i] removes the key [i]; [rowcount > 0] tells
    whether it was there. *)
Lemma delete_where_id (i : Z) t :
  delete_where (λ k _, k =? i) t
  = ((delete_where (λ k _, k =? i) t).1, mk_table (delete i (rows t)) (sequence t))
  ∧ (0 <? (delete_where (λ k _, k =? i) t).1) = bool_decide (is_Some (rows t !! i)).
Proof.
  split.
  - unfold delete_where. cbn [fst]. do 2 f_equal.
    apply map_eq. intros k. apply option_eq. intros r.
    rewrite map_lookup_filter_Some, lookup_delete_Some. cbn [fst].
    rewrite Z.eqb_neq. split; intros [? ?]; split; congruence.
  - unfold delete_where. cbn [fst].
    etrans; [apply (rowcount_positive (λ k _, k =? i))|].
    destruct (bool_decide (is_Some (rows t !! i))) eqn:Hd.
    + apply bool_decide_eq_true in Hd as [r Hr].
      apply exists_row_true. exists i, r. cbn [rows]. by rewrite Z.eqb_refl.
    + apply bool_decide_eq_false in Hd.
      apply exists_row_false. intros k r Hk. cbn [rows] in Hk.
      apply Z.eqb_neq. intros ->. apply Hd. eauto.
Qed.

End tables.

(** ** db.py: students *)

Section students.

Import Database.
Local Open Scope Z_scope.

Implicit Types (db : store) (tbl : table student_row) (st : Student.t) (now : str).

Lemma roll_check tbl roll :
  exists_row (λ _ r, bool_decide (col_roll r = roll)) tbl = true ↔ roll_taken tbl roll.
Proof.
  rewrite exists_row_true. unfold roll_taken.
  by setoid_rewrite bool_decide_eq_true.
Qed.

Lemma email_check tbl email :
  exists_row (λ _ r, bool_decide (col_email r = email)) tbl = true ↔ email_taken tbl email.
Proof.
  rewrite exists_row_true. unfold email_taken.
  by setoid_rewrite bool_decide_eq_true.
Qed.

Lemma roll_check_other tbl i roll :
  exists_row (λ k r, bool_decide (col_roll r = roll) && id_ne k (Some i)) tbl = true
  ↔ roll_taken_by_other tbl i roll.
Proof.
  rewrite exists_row_true. unfold roll_taken_by_other, id_ne. split.
  - intros (k & r & Hk & H).
    apply andb_true_iff in H as [H1%bool_decide_eq_true H2%negb_true_iff%Z.eqb_neq].
    by exists k, r.
  - intros (k & r & Hne & Hk & H). exists k, r. split; [done|].
    apply andb_true_iff. split; [by apply bool_decide_eq_true|].
    by apply negb_true_iff, Z.eqb_neq.
Qed.

Lemma email_check_other tbl i email :
  exists_row (λ k r, bool_decide (col_email r = email) && id_ne k (Some i)) tbl = true
  ↔ email_taken_by_other tbl i email.
Proof.
  rewrite exists_row_true. unfold email_taken_by_other, id_ne. split.
  - intros (k & r & Hk & H).
    apply andb_true_iff in H as [H1%bool_decide_eq_true H2%negb_true_iff%Z.eqb_neq].
    by exists k, r.
  - intros (k & r & Hne & Hk & H). exists k, r. split; [done|].
    apply andb_true_iff. split; [by apply bool_decide_eq_true|].
    by apply negb_true_iff, Z.eqb_neq.
Qed.

Lemma id_check tbl i :
  exists_row (λ k _, id_eq k (Some i)) tbl = true ↔ is_Some (rows tbl !! i).
Proof.
  rewrite exists_row_true. unfold id_eq. split.
  - intros (k & r & Hk & ->%Z.eqb_eq). eauto.
  - intros [r Hr]. exists i, r. by rewrite Z.eqb_refl.
Qed.

(** After the two [SELECT]s found nothing, the [UNIQUE] constraints hold for
    the row about to be written. *)
Lemma unique_after_checks_insert tbl roll email :
  ¬ roll_taken tbl roll → ¬ email_taken tbl email →
  students_unique_error None roll email tbl = None.
Proof.
  intros Hr He. unfold students_unique_error.
  case_select H1.
  { exfalso. apply Hr. apply exists_row_true in H1 as (k & r & ? & H).
    cbn in H. apply bool_decide_eq_true in H. by exists k, r. }
  case_select H2; [|done].
  exfalso. apply He. apply exists_row_true in H2 as (k & r & ? & H).
  cbn in H. apply bool_decide_eq_true in H. by exists k, r.
Qed.

Lemma unique_after_checks_update tbl i roll email :
  ¬ roll_taken_by_other tbl i roll → ¬ email_taken_by_other tbl i email →
  students_unique_error (Some i) roll email tbl = None.
Proof.
  intros Hr He. unfold students_unique_error.
  case_select H1.
  { exfalso. apply Hr. apply exists_row_true in H1 as (k & r & ? & H).
    apply andb_true_iff in H as [H1%negb_true_iff%Z.eqb_neq H2%bool_decide_eq_true].
    by exists k, r. }
  case_select H2; [|done].
  exfalso. apply He. apply exists_row_true in H2 as (k & r & ? & H).
  apply andb_true_iff in H as [H3%negb_true_iff%Z.eqb_neq H4%bool_decide_eq_true].
  by exists k, r.
Qed.




End students.



Section students_update.

Import Database.
Local Open Scope Z_scope.

Implicit Types (db : store) (tbl : table student_row) (st : Student.t) (now : str).

Lemma update_student_not_found now st db tbl :
  students db = Some tbl →
  match Student._id st with Some i => rows tbl !! i = None | None => True end →
  update_student now st db = (Raise (Exception (lit "Student not found")), db).
Proof.
  intros Hdb Hid. unfold update_student. rewrite Hdb.
  case_select H1; [|done]. exfalso.
  apply exists_row_true in H1 as (k & r & Hk & H).
  destruct (Student._id st) as [i|]; [|done].
  cbn in H. apply Z.eqb_eq in H as ->. congruence.
Qed.

Lemma update_student_roll_taken now st db tbl i :
  students db = Some tbl → Student._id st = Some i → is_Some (rows tbl !! i) →
  roll_taken_by_other tbl i (Student._roll st) →
  update_student now st db
  = (Raise (Exception (lit "Student with roll number '" ++ Student._roll st
                         ++ lit "' already exists")), db).
Proof.
  intros Hdb Hid Hi Hr. unfold update_student. rewrite Hdb, Hid.
  rewrite (proj2 (id_check _ _) Hi). cbn [negb].
  by rewrite (proj2 (roll_check_other _ _ _) Hr).
Qed.

Lemma update_student_email_taken now st db tbl i :
  students db = Some tbl → Student._id st = Some i → is_Some (rows tbl !! i) →
  ¬ roll_taken_by_other tbl i (Student._roll st) →
  email_taken_by_other tbl i (Student._email st) →
  update_student now st db
  = (Raise (Exception (lit "Student with email '" ++ Student._email st
                         ++ lit "' already exists")), db).
Proof.
  intros Hdb Hid Hi Hr He. unfold update_student. rewrite Hdb, Hid.
  rewrite (proj2 (id_check _ _) Hi). cbn [negb].
  case_select H1; [by apply roll_check_other in H1|].
  by rewrite (proj2 (email_check_other _ _ _) He).
Qed.

Lemma update_student_updates now st db tbl i old :
  students db = Some tbl → Student._id st = Some i → rows tbl !! i = Some old →
  ¬ roll_taken_by_other tbl i (Student._roll st) →
  ¬ email_taken_by_other tbl i (Student._email st) →
  update_student now st db
  = (Ok true,
     mk_store (Some (mk_table (<[i := updated_row now st old]> (rows tbl))
                       (sequence tbl)))
              (users db)).
Proof.
  intros Hdb Hid Hi Hr He. unfold update_student. rewrite Hdb, Hid.
  rewrite (proj2 (id_check _ _) (mk_is_Some _ _ Hi)). cbn [negb].
  case_select H1; [by apply roll_check_other in H1|].
  case_select H2; [by apply email_check_other in H2|].
  rewrite unique_after_checks_update by done.
  match goal with
  | |- context [update_where ?P ?f tbl] =>
      destruct (update_where_id f i old tbl Hi) as [Heq Hpos];
      destruct (update_where P f tbl) as [rowcount tbl'] eqn:E
  end.
  cbn [fst] in Heq, Hpos. injection Heq as ->. by rewrite Hpos.
Qed.


Lemma delete_student_result student_id db tbl :
  students db = Some tbl →
  delete_student student_id db
  = (Ok (bool_decide (is_Some (rows tbl !! student_id))),
     mk_store (Some (mk_table (delete student_id (rows tbl)) (sequence tbl)))
              (users db)).
Proof.
  intros Hdb. unfold delete_student. rewrite Hdb.
  destruct (delete_where_id student_id tbl) as [Heq Hpos].
  destruct (delete_where _ tbl) as [rowcount tbl'] eqn:E.
  cbn [fst] in Heq, Hpos. injection Heq as ->. by rewrite Hpos.
Qed.


End students_update.





(** ** db.py: initialisation *)

Section initialisation.

Import Database.
Local Open Scope Z_scope.

Implicit Types (db : store) (now : str).












End initialisation.



(** ** db.py: the [UNIQUE] constraints are kept *)

Section unique_kept.

Import Database.
Local Open Scope Z_scope.

Implicit Types (db : store) (tbl : table student_row) (st : Student.t) (now : str).






End unique_kept.

(** ** utils.py: [validate_csv_data] *)

Section batch.

Import CSVHandler.

Implicit Types (row : csv_row) (rows earlier : list csv_row) (st : state) (i : nat).

Lemma row_errors_from_imap i earlier rows :
  row_errors_from i earlier rows
  = imap (λ j row, row_errors (i + j) row (earlier ++ take j rows)) rows.
Proof.
  revert i earlier. induction rows as [|row rest IH]; intros i earlier; [done|].
  cbn [row_errors_from imap]. rewrite Nat.add_0_r, take_0, app_nil_r. f_equal.
  rewrite IH. apply imap_ext. intros j row' _. cbn.
  by rewrite Nat.add_succ_r, <- app_assoc.
Qed.

Lemma batch_row_errors_from rows : batch_row_errors rows = row_errors_from 1 [] rows.
Proof. by rewrite row_errors_from_imap. Qed.

Lemma valid_students_snoc earlier row :
  valid_students (earlier ++ [row])
  = valid_students earlier
    ++ match row_student row with Ok s => [s] | Raise _ => [] end.
Proof.
  unfold valid_students. rewrite bind_app. cbn. by rewrite app_nil_r.
Qed.

Lemma validate_row_step i row earlier st :
  tracks earlier st →
  ∃ st', validate_row i row st = Ok st'
         ∧ errors st' = errors st ++ row_errors i row earlier
         ∧ tracks (earlier ++ [row]) st'.
Proof.
  intros [Hr He]. unfold validate_row, row_errors, tracks.
  rewrite valid_students_snoc. fold (row_student row).
  pose proof (init_raises (row_name row) (row_roll row) (row_department row)
                (row_email row) (default [] (row_phone row)) None) as Hraise.
  fold (row_student row) in Hraise.
  destruct (row_student row) as [s|[m|m]]; [| |done].
  - eexists. split; [done|]. unfold check_duplicates.
    rewrite !fmap_app. cbn [fmap list_fmap].
    rewrite (bool_decide_ext _ _ (Hr (Student._roll s))).
    destruct (bool_decide (Student._roll s ∈ _)) eqn:H1; cbn [seen_emails errors];
      rewrite (bool_decide_ext _ _ (He (Student._email s)));
      destruct (bool_decide (Student._email s ∈ _)) eqn:H2;
      cbn [seen_rolls seen_emails errors];
      try apply bool_decide_eq_true in H1; try apply bool_decide_eq_true in H2;
      (split; [by rewrite <- ?app_assoc, ?app_nil_r|]);
      split; intros x; rewrite elem_of_app, list_elem_of_singleton;
      rewrite ?elem_of_union, ?elem_of_singleton, ?Hr, ?He;
      split; intros; destruct_or?; subst; auto.
  - eexists. split; [done|]. cbn [errors seen_rolls seen_emails].
    rewrite !app_nil_r. done.
Qed.

Lemma validate_rows_steps i rows earlier st :
  tracks earlier st →
  ∃ st', validate_rows i rows st = Ok st'
         ∧ errors st' = errors st ++ mjoin (row_errors_from i earlier rows).
Proof.
  revert i earlier st. induction rows as [|row rest IH]; intros i earlier st Ht.
  - exists st. by rewrite app_nil_r.
  - destruct (validate_row_step i row earlier st Ht) as (st1 & H1 & He1 & Ht1).
    destruct (IH (S i) _ st1 Ht1) as (st2 & H2 & He2).
    exists st2. cbn [validate_rows]. rewrite H1. cbn. split; [done|].
    by rewrite He2, He1, <- app_assoc.
Qed.

Lemma validate_csv_data_batch_errors rows :
  validate_csv_data rows = Ok (batch_errors rows).
Proof.
  unfold validate_csv_data, batch_errors. rewrite batch_row_errors_from.
  destruct (validate_rows_steps 1 rows [] (mk_state [] ∅ ∅)) as (st & H & He).
  { split; intros x; cbn; by rewrite elem_of_empty, elem_of_nil. }
  rewrite H. cbn. by rewrite He.
Qed.

Lemma row_student_empty_name row :
  is_empty (strip (row_name row)) = true →
  row_student row = Raise (ValueError (lit "Name cannot be empty")).
Proof.
  intros H. unfold row_student, Student.init, Student._validate_name.
  by rewrite is_empty_strip, H.
Qed.

End batch.

(** C3: [validate_csv_data] returns, for every batch, the error strings of
    all its rows in row order, rows counted from 1: a row that fails
    validation gives "Row i: " followed by the message, a valid row gives a
    duplicate error for its roll and for its email when an earlier valid row
    of the batch has the same; no row ends the processing.  In particular,
    for three rows where the first is valid, the second has an empty name and
    the third is valid with the roll, but not the email, of the first, the
    result is the two strings of rows 2 and 3. *)
Theorem validate_csv_data_spec :
  (∀ rows, CSVHandler.validate_csv_data rows = Ok (batch_errors rows))
  ∧ (∀ rows1 rows2,
       batch_row_errors (rows1 ++ rows2)
       = batch_row_errors rows1
         ++ imap (λ j row, row_errors (S (length rows1 + j)) row
                             (rows1 ++ take j rows2)) rows2)
  ∧ ∀ r1 r2 r3 s1 s3,
      row_student r1 = Ok s1 →
      is_empty (strip (CSVHandler.row_name r2)) = true →
      row_student r3 = Ok s3 →
      Student._roll s3 = Student._roll s1 →
      Student._email s3 ≠ Student._email s1 →
      batch_row_errors [r1; r2; r3]
      = [ [];
          [CSVHandler.row_prefix 2 ++ lit "Name cannot be empty"];
          [duplicate_roll_error 3 s3] ]
      ∧ CSVHandler.validate_csv_data [r1; r2; r3]
        = Ok [ CSVHandler.row_prefix 2 ++ lit "Name cannot be empty";
               duplicate_roll_error 3 s3 ].
Proof.
  split_and!.
  - apply validate_csv_data_batch_errors.
  - intros rows1 rows2. unfold batch_row_errors. rewrite imap_app. f_equal.
    + apply imap_ext. intros j row Hj. cbn.
      rewrite take_app_le; [done|]. apply lookup_lt_Some in Hj. lia.
    + apply imap_ext. intros j row _. cbn.
      by rewrite take_app_ge, Nat.add_comm, Nat.add_sub by lia.
  - intros r1 r2 r3 s1 s3 H1 H2 H3 Hroll Hemail.
    assert (Hrows : batch_row_errors [r1; r2; r3]
                    = [ []; [CSVHandler.row_prefix 2 ++ lit "Name cannot be empty"];
                        [duplicate_roll_error 3 s3] ]).
    { rewrite batch_row_errors_from. cbn [row_errors_from app].
      unfold row_errors, valid_students. cbn [mbind list_bind app].
      rewrite H1, (row_student_empty_name r2 H2), H3. cbn [fmap list_fmap app].
      rewrite Hroll.
      rewrite !bool_decide_eq_false_2 by (apply not_elem_of_nil).
      rewrite bool_decide_eq_true_2 by (apply list_elem_of_singleton; done).
      rewrite bool_decide_eq_false_2 by (by rewrite list_elem_of_singleton).
      by cbn. }
    split; [done|].
    rewrite validate_csv_data_batch_errors. unfold batch_errors. by rewrite Hrows.
Qed.

Lemma validate_csv_data_spec_witness :
  let r1 := CSVHandler.mk_row (lit "Alice") (lit "cs001") (lit "Physics")
              (lit "alice@example.com") (Some []) in
  let r2 := CSVHandler.mk_row [] (lit "cs002") (lit "Physics")
              (lit "bob@example.com") (Some []) in
  let r3 := CSVHandler.mk_row (lit "Carol") (lit "CS001") (lit "Chemistry")
              (lit "carol@example.com") None in
  let s1 := Student.mk None (lit "Alice") (lit "CS001") (lit "Physics")
              (lit "alice@example.com") [] in
  let s3 := Student.mk None (lit "Carol") (lit "CS001") (lit "Chemistry")
              (lit "carol@example.com") [] in
  row_student r1 = Ok s1
  ∧ is_empty (strip (CSVHandler.row_name r2)) = true
  ∧ row_student r3 = Ok s3
  ∧ Student._roll s3 = Student._roll s1
  ∧ Student._email s3 ≠ Student._email s1
  ∧ CSVHandler.validate_csv_data [r1; r2; r3]
    = Ok [ lit "Row 2: Name cannot be empty";
           lit "Row 3: Duplicate roll number 'CS001' in import data" ].
Proof.
  intros r1 r2 r3 s1 s3.
  assert (H1 : row_student r1 = Ok s1) by (vm_compute; reflexivity).
  assert (H2 : is_empty (strip (CSVHandler.row_name r2)) = true) by reflexivity.
  assert (H3 : row_student r3 = Ok s3) by (vm_compute; reflexivity).
  assert (H4 : Student._roll s3 = Student._roll s1) by reflexivity.
  assert (H5 : Student._email s3 ≠ Student._email s1) by (vm_compute; discriminate).
  split_and!; [done..|].
  exact (proj2 (proj2 (proj2 validate_csv_data_spec) r1 r2 r3 s1 s3 H1 H2 H3 H4 H5)).
Defined.

(** C10: the two duplicate checks of a valid row are independent: when its
    roll and its email are both among those seen, the row adds two error
    strings, the roll one first.  A second row that repeats the roll and the
    email of a valid first row thus yields two strings for one offending
    row. *)
Theorem duplicate_checks_independent :
  (∀ i row st s,
     row_student row = Ok s →
     Student._roll s ∈ CSVHandler.seen_rolls st →
     Student._email s ∈ CSVHandler.seen_emails st →
     CSVHandler.validate_row i row st
     = Ok (CSVHandler.mk_state
             (CSVHandler.errors st
                ++ [duplicate_roll_error i s; duplicate_email_error i s])
             (CSVHandler.seen_rolls st) (CSVHandler.seen_emails st)))
  ∧ ∀ r1 r2 s1 s2,
      row_student r1 = Ok s1 → row_student r2 = Ok s2 →
      Student._roll s2 = Student._roll s1 →
      Student._email s2 = Student._email s1 →
      CSVHandler.validate_csv_data [r1; r2]
      = Ok [duplicate_roll_error 2 s2; duplicate_email_error 2 s2]
      ∧ offending_rows [r1; r2] = 1%nat.
Proof.
  split.
  - intros i row st s Hs Hr He. unfold CSVHandler.validate_row.
    fold (row_student row). rewrite Hs. unfold CSVHandler.check_duplicates.
    rewrite (bool_decide_eq_true_2 _ Hr). cbn [CSVHandler.seen_emails].
    rewrite (bool_decide_eq_true_2 _ He).
    cbn [CSVHandler.errors CSVHandler.seen_rolls CSVHandler.seen_emails].
    by rewrite <- app_assoc.
  - intros r1 r2 s1 s2 H1 H2 Hroll Hemail.
    assert (Hrows : batch_row_errors [r1; r2]
                    = [ []; [duplicate_roll_error 2 s2; duplicate_email_error 2 s2] ]).
    { rewrite batch_row_errors_from. cbn [row_errors_from app].
      unfold row_errors, valid_students. cbn [mbind list_bind app].
      rewrite H1, H2. cbn [fmap list_fmap app].
      rewrite Hroll, Hemail.
      rewrite !bool_decide_eq_false_2 by (apply not_elem_of_nil).
      rewrite !bool_decide_eq_true_2 by (apply list_elem_of_singleton; done).
      by cbn. }
    split.
    + rewrite validate_csv_data_batch_errors. unfold batch_errors. by rewrite Hrows.
    + unfold offending_rows. rewrite Hrows.
      rewrite filter_cons_False by (intros H; by apply H).
      by rewrite filter_cons_True.
Qed.

Lemma duplicate_checks_independent_witness :
  let r1 := CSVHandler.mk_row (lit "Alice") (lit "cs001") (lit "Physics")
              (lit "alice@example.com") None in
  let r2 := CSVHandler.mk_row (lit "Alicia") (lit "CS001") (lit "Physics")
              (lit "Alice@Example.com") None in
  let s1 := Student.mk None (lit "Alice") (lit "CS001") (lit "Physics")
              (lit "alice@example.com") [] in
  let s2 := Student.mk None (lit "Alicia") (lit "CS001") (lit "Physics")
              (lit "alice@example.com") [] in
  row_student r1 = Ok s1 ∧ row_student r2 = Ok s2
  ∧ Student._roll s2 = Student._roll s1 ∧ Student._email s2 = Student._email s1
  ∧ CSVHandler.validate_csv_data [r1; r2]
    = Ok [ lit "Row 2: Duplicate roll number 'CS001' in import data";
           lit "Row 2: Duplicate email 'alice@example.com' in import data" ]
  ∧ offending_rows [r1; r2] = 1%nat.
Proof.
  intros r1 r2 s1 s2.
  assert (H1 : row_student r1 = Ok s1) by (vm_compute; reflexivity).
  assert (H2 : row_student r2 = Ok s2) by (vm_compute; reflexivity).
  split_and!; [done..| |];
    apply (proj2 duplicate_checks_independent r1 r2 s1 s2 H1 H2 eq_refl eq_refl).
Defined.

(** ** utils.py: reports *)

(** C8: on the empty list both report generators return exactly
    "No students found.", whatever the clock and the number formatting. *)
Theorem empty_reports (now : str) (format_percentage : nat → nat → str) :
  ReportGenerator.generate_department_report now [] = lit "No students found."
  ∧ ReportGenerator.generate_summary_report now format_percentage []
    = lit "No students found.".
Proof. split; reflexivity. Qed.

(** * Further properties *)

(** ** db.py: what the operations keep *)

Section store_invariants.

Import Database.
Local Open Scope Z_scope.

Implicit Types (db : store) (tbl : table student_row) (st : Student.t) (now : str).

(** A call that raises leaves the store as it was. *)
Lemma add_student_raise now st db e db' :
  add_student now st db = (Raise e, db') → db' = db.
Proof.
  unfold add_student. destruct (students db) as [tbl|]; [|by intros [= _ <-]].
  case_select H1; [by intros [= _ <-]|].
  case_select H2; [by intros [= _ <-]|].
  destruct (students_unique_error _ _ _ _); [by intros [= _ <-]|].
  done.
Qed.

Lemma add_student_ok now st db tbl student_id db' :
  students db = Some tbl → add_student now st db = (Ok student_id, db') →
  ¬ roll_taken tbl (Student._roll st) ∧ ¬ email_taken tbl (Student._email st)
  ∧ sequence tbl < student_id
  ∧ db' = mk_store (Some (mk_table (<[student_id := inserted_row now st]> (rows tbl))
                            student_id)) (users db).
Proof.
  intros Hdb. unfold add_student. rewrite Hdb.
  case_select H1; [done|]. case_select H2; [done|].
  assert (Hr : ¬ roll_taken tbl (Student._roll st))
    by (intros ?%roll_check; congruence).
  assert (He : ¬ email_taken tbl (Student._email st))
    by (intros ?%email_check; congruence).
  rewrite unique_after_checks_insert by done. cbn. intros [= <- <-].
  split_and!; [done..| |done]. lia.
Qed.

Lemma update_student_raise now st db e db' :
  update_student now st db = (Raise e, db') → db' = db.
Proof.
  unfold update_student. destruct (students db) as [tbl|]; [|by intros [= _ <-]].
  case_select H0; cbn [negb]; [|by intros [= _ <-]].
  case_select H1; [by intros [= _ <-]|].
  case_select H2; [by intros [= _ <-]|].
  destruct (students_unique_error _ _ _ _); [by intros [= _ <-]|].
  by destruct (update_where _ _ _).
Qed.

End store_invariants.



(** X2: an [id] is never given twice: after [add_student] returned [i],
    whichever student is deleted next, the following [add_student] returns
    an [id] larger than [i]. *)
Theorem student_id_not_reused (now1 now2 : str) (st1 st2 : Student.t)
    (db db1 db3 : Database.store) (i j k : Z) :
  Database.add_student now1 st1 db = (Ok i, db1) →
  Database.add_student now2 st2 (Database.delete_student k db1).2 = (Ok j, db3) →
  (i < j)%Z.
Proof.
  intros H1 H2.
  destruct (Database.students db) as [tbl|] eqn:Hdb.
  2: { unfold Database.add_student in H1. by rewrite Hdb in H1. }
  apply (add_student_ok now1 st1 db tbl i db1 Hdb) in H1 as (_ & _ & _ & ->).
  set (tbl1 := Database.mk_table
                 (<[i := inserted_row now1 st1]> (Database.rows tbl)) i) in H2.
  rewrite (delete_student_result k (Database.mk_store (Some tbl1) (Database.users db))
             tbl1 eq_refl) in H2.
  cbn [snd] in H2.
  eapply add_student_ok in H2 as (_ & _ & Hlt & _); [|reflexivity].
  exact Hlt.
Qed.

Lemma student_id_not_reused_witness :
  let st1 := Student.mk None (lit "Ada") (lit "CS001") (lit "Physics")
               (lit "ada@example.com") [] in
  let st2 := Student.mk None (lit "Bob") (lit "CS002") (lit "Physics")
               (lit "bob@example.com") [] in
  let db := Database.mk_store (Some Database.empty_table) None in
  ∃ db1 db3,
    Database.add_student (lit "t1") st1 db = (Ok 1%Z, db1)
    ∧ Database.add_student (lit "t2") st2 (Database.delete_student 1 db1).2
      = (Ok 2%Z, db3)
    ∧ (1 < 2)%Z.
Proof.
  intros st1 st2 db. do 2 eexists.
  assert (H1 : Database.add_student (lit "t1") st1 db
               = (Ok 1%Z, (Database.add_student (lit "t1") st1 db).2))
    by (vm_compute; reflexivity).
  assert (H2 : Database.add_student (lit "t2") st2
                 (Database.delete_student 1 (Database.add_student (lit "t1") st1 db).2).2
               = (Ok 2%Z,
                  (Database.add_student (lit "t2") st2
                     (Database.delete_student 1
                        (Database.add_student (lit "t1") st1 db).2).2).2))
    by (vm_compute; reflexivity).
  split_and!; [exact H1 | exact H2 |].
  exact (student_id_not_reused _ _ _ _ _ _ _ _ _ _ H1 H2).
Defined.

(** ** db.py: writing and reading back *)

Section round_trips.

Import Database.
Local Open Scope Z_scope.

Implicit Types (db : store) (tbl : table student_row) (st : Student.t) (now : str).

(** Constructing a student again from the fields of a constructed one, under
    another [id]. *)
Lemma init_again name roll department email phone student_id student_id' st :
  ascii_str name → ascii_str roll → ascii_str department → ascii_str email →
  Student.init name roll department email phone student_id = Ok st →
  Student.init (Student._name st) (Student._roll st) (Student._department st)
    (Student._email st) (Student._phone st) student_id'
  = Ok (with_id student_id' st).
Proof.
  intros Hn Hr Hd He Hst.
  apply init_ok in Hst as (Hn' & Hr' & Hd' & He' & Hp' & _).
  apply init_ok. cbn. split_and!; [| | | | |done].
  - by apply (validate_name_again name).
  - by apply (validate_roll_again roll).
  - by apply (validate_department_again department).
  - by apply (validate_email_again email).
  - by apply (validate_phone_again phone).
Qed.

Lemma get_student_lookup student_id db tbl :
  students db = Some tbl →
  get_student student_id db
  = match rows tbl !! student_id with
    | Some r => s ← Student.from_dict (row_dict student_id r); Ok (Some s)
    | None => Ok None
    end.
Proof. intros Hdb. unfold get_student. by rewrite Hdb. Qed.

End round_trips.

(** X3: a student constructed from ASCII fields and added to the store is
    read back by [get_student] at the returned [id] with the same name, roll,
    department, email and phone, and with that [id]. *)
Theorem add_then_get (name roll department email phone now : str)
    (st : Student.t) (db db' : Database.store) (student_id : Z) :
  ascii_str name → ascii_str roll → ascii_str department → ascii_str email →
  Student.init name roll department email phone None = Ok st →
  Database.add_student now st db = (Ok student_id, db') →
  Database.get_student student_id db' = Ok (Some (with_id (Some student_id) st)).
Proof.
  intros Hn Hr Hd He Hst Hadd.
  destruct (Database.students db) as [tbl|] eqn:Hdb.
  2: { unfold Database.add_student in Hadd. by rewrite Hdb in Hadd. }
  pose proof (add_student_ok now st db tbl student_id db' Hdb Hadd) as (_ & _ & _ & Hdb').
  rewrite Hdb'. erewrite get_student_lookup by reflexivity. cbn [Database.rows].
  rewrite lookup_insert_eq. unfold Student.from_dict, Database.row_dict. cbn.
  by rewrite (init_again name roll department email phone None (Some student_id) st).
Qed.

Lemma add_then_get_witness :
  let st := Student.mk None (lit "Ada Lovelace") (lit "CS001") (lit "Physics")
              (lit "ada@example.com") (lit "123-456-7890") in
  let db := Database.mk_store (Some Database.empty_table) None in
  Student.init (lit "ada lovelace") (lit "cs001") (lit "physics")
    (lit "Ada@Example.com") (lit "123-456-7890") None = Ok st
  ∧ Database.get_student 1 (Database.add_student (lit "t1") st db).2
    = Ok (Some (with_id (Some 1%Z) st)).
Proof.
  intros st db.
  assert (Hst : Student.init (lit "ada lovelace") (lit "cs001") (lit "physics")
                  (lit "Ada@Example.com") (lit "123-456-7890") None = Ok st)
    by (vm_compute; reflexivity).
  assert (Hadd : Database.add_student (lit "t1") st db
                 = (Ok 1%Z, (Database.add_student (lit "t1") st db).2))
    by (vm_compute; reflexivity).
  split; [exact Hst|].
  refine (add_then_get _ _ _ _ _ _ _ _ _ _ _ _ _ _ Hst Hadd);
    unfold ascii_str; cbv; repeat constructor.
Defined.

(** X4: a student constructed from ASCII fields under the [id] of a stored
    row and written by [update_student] is read back by [get_student] as it
    was constructed; the other rows are read back as before. *)
Theorem update_then_get (name roll department email phone now : str)
    (st : Student.t) (db db' : Database.store) (student_id : Z) (b : bool) :
  ascii_str name → ascii_str roll → ascii_str department → ascii_str email →
  Student.init name roll department email phone (Some student_id) = Ok st →
  Database.update_student now st db = (Ok b, db') →
  b = true
  ∧ Database.get_student student_id db' = Ok (Some st)
  ∧ ∀ k, k ≠ student_id → Database.get_student k db' = Database.get_student k db.
Proof.
  intros Hn Hr Hd He Hst Hupd.
  assert (Hid : Student._id st = Some student_id)
    by (by apply init_ok in Hst as (_ & _ & _ & _ & _ & ->)).
  destruct (Database.students db) as [tbl|] eqn:Hdb.
  2: { unfold Database.update_student in Hupd. by rewrite Hdb in Hupd. }
  destruct (Database.rows tbl !! student_id) as [old|] eqn:Hi.
  2: { rewrite (update_student_not_found now st db tbl) in Hupd; [done..|].
       by rewrite Hid. }
  assert (Hfr : ¬ roll_taken_by_other tbl student_id (Student._roll st)).
  { intros H. by rewrite (update_student_roll_taken now st db tbl student_id) in Hupd. }
  assert (Hfe : ¬ email_taken_by_other tbl student_id (Student._email st)).
  { intros H. by rewrite (update_student_email_taken now st db tbl student_id) in Hupd. }
  rewrite (update_student_updates now st db tbl student_id old) in Hupd by done.
  injection Hupd as <- <-. split_and!; [done| |].
  - erewrite get_student_lookup by reflexivity. cbn [Database.rows].
    rewrite lookup_insert_eq. unfold Student.from_dict, Database.row_dict. cbn.
    rewrite (init_again name roll department email phone (Some student_id)
               (Some student_id) st) by done.
    cbn. destruct st. cbn in Hid. by subst.
  - intros k Hk. erewrite !get_student_lookup by (reflexivity || exact Hdb).
    cbn [Database.rows]. by rewrite lookup_insert_ne.
Qed.

Lemma update_then_get_witness :
  let old := Database.mk_student_row (lit "Ada") (lit "CS001") (lit "Physics")
               (lit "ada@example.com") [] (lit "t0") (lit "t0") in
  let st := Student.mk (Some 1%Z) (lit "Ada Lovelace") (lit "CS001") (lit "Physics")
              (lit "ada@example.com") (lit "123-456-7890") in
  let db := Database.mk_store (Some (Database.mk_table {[ 1%Z := old ]} 1)) None in
  Student.init (lit "ada lovelace") (lit "cs001") (lit "physics")
    (lit "Ada@Example.com") (lit "123-456-7890") (Some 1%Z) = Ok st
  ∧ Database.get_student 1 (Database.update_student (lit "t1") st db).2
    = Ok (Some st).
Proof.
  intros old st db.
  assert (Hst : Student.init (lit "ada lovelace") (lit "cs001") (lit "physics")
                  (lit "Ada@Example.com") (lit "123-456-7890") (Some 1%Z) = Ok st)
    by (vm_compute; reflexivity).
  assert (Hupd : Database.update_student (lit "t1") st db
                 = (Ok true, (Database.update_student (lit "t1") st db).2))
    by (vm_compute; reflexivity).
  split; [exact Hst|].
  refine (proj1 (proj2 (update_then_get _ _ _ _ _ _ _ _ _ _ _ _ _ _ _ Hst Hupd)));
    unfold ascii_str; cbv; repeat constructor.
Defined.



(** ** db.py and gui.py: users *)

Section users.

Import Database.
Local Open Scope Z_scope.

Implicit Types (db : store) (tbl : table user_row) (now : str).







End users.







(** ** db.py: queries that return lists *)

Section ordering.

Import Database.

Lemma str_le_refl a : str_le a a = true.
Proof.
  induction a as [|x a IH]; [done|]. cbn. by rewrite N.eqb_refl, IH, orb_true_r.
Qed.

Lemma str_le_total a b : str_le a b = true ∨ str_le b a = true.
Proof.
  revert b. induction a as [|x a IH]; intros [|y b]; cbn; auto.
  destruct (N.ltb_spec x y); [by left|].
  destruct (N.ltb_spec y x); [by right|].
  assert (x = y) as -> by lia. rewrite N.eqb_refl. cbn. apply IH.
Qed.

Lemma str_le_trans a b c : str_le a b = true → str_le b c = true → str_le a c = true.
Proof.
  revert b c. induction a as [|x a IH]; intros [|y b] [|z c]; cbn; try done.
  rewrite !orb_true_iff, !andb_true_iff, !N.ltb_lt, !N.eqb_eq.
  intros [H1|[-> H1]] [H2|[-> H2]]; [left; lia | by left | by left |].
  right. split; [done|]. by apply (IH b).
Qed.

Lemma str_le_antisym a b : str_le a b = true → str_le b a = true → a = b.
Proof.
  revert b. induction a as [|x a IH]; intros [|y b]; cbn; try done.
  rewrite !orb_true_iff, !andb_true_iff, !N.ltb_lt, !N.eqb_eq.
  intros [H1|[-> H1]] [H2|[H2 H3]]; try lia. f_equal. by apply IH.
Qed.

Context {A : Type} (le : A → A → bool).

Lemma insert_ordered_perm x l : insert_ordered le x l ≡ₚ x :: l.
Proof.
  induction l as [|y l IH]; [done|]. cbn. destruct (le x y); [done|].
  by rewrite IH, Permutation_swap.
Qed.

Lemma order_by_perm l : order_by le l ≡ₚ l.
Proof.
  induction l as [|x l IH]; [done|]. cbn. rewrite insert_ordered_perm.
  by rewrite IH.
Qed.

Hypothesis le_total : ∀ a b, le a b = true ∨ le b a = true.
Hypothesis le_trans : ∀ a b c, le a b = true → le b c = true → le a c = true.



End ordering.

Section listings.

Import Database.
Local Open Scope Z_scope.

Implicit Types (db : store) (tbl : table student_row) (l : list (Z * student_row)).

Lemma scan_perm {R : Type} (t : table R) : scan t ≡ₚ map_to_list (rows t).
Proof. apply order_by_perm. Qed.

Lemma elem_of_scan {R : Type} (t : table R) k r :
  (k, r) ∈ scan t ↔ rows t !! k = Some r.
Proof. by rewrite scan_perm, elem_of_map_to_list. Qed.

Lemma length_scan {R : Type} (t : table R) : length (scan t) = size (rows t).
Proof. by rewrite scan_perm, length_map_to_list. Qed.






End listings.

Section validated_rows.

Import Database.
Local Open Scope Z_scope.

Implicit Types (db : store) (tbl : table student_row).

Lemma rows_validated_empty : rows_validated empty_table.
Proof. intros k r H. cbn in H. by rewrite lookup_empty in H. Qed.

Lemma rows_validated_insert tbl i r seq :
  rows_validated tbl →
  Student.from_dict (row_dict i r) = Ok (student_of_row i r) →
  rows_validated (mk_table (<[i := r]> (rows tbl)) seq).
Proof.
  intros Hv Hr k r'. cbn [rows]. rewrite lookup_insert_Some.
  intros [[<- <-]|[_ Hk]]; [done | by apply Hv].
Qed.

Lemma rows_validated_delete tbl i seq :
  rows_validated tbl → rows_validated (mk_table (delete i (rows tbl)) seq).
Proof.
  intros Hv k r. cbn [rows]. rewrite lookup_delete_Some. intros [_ Hk]. by apply Hv.
Qed.

(** The row written for a student constructed from ASCII fields is read back
    as that student. *)
Lemma written_row_validated name roll department email phone student_id st i
    created updated :
  ascii_str name → ascii_str roll → ascii_str department → ascii_str email →
  Student.init name roll department email phone student_id = Ok st →
  let r := mk_student_row (Student._name st) (Student._roll st)
             (Student._department st) (Student._email st) (Student._phone st)
             created updated in
  Student.from_dict (row_dict i r) = Ok (student_of_row i r).
Proof.
  intros Hn Hr Hd He Hst r. unfold Student.from_dict, row_dict. cbn.
  by rewrite (init_again name roll department email phone student_id (Some i) st).
Qed.

End validated_rows.

(** X9: the rows of [students] stay what validation makes of them: this holds
    of a table without rows, and is kept by [delete_student] and, for a
    student constructed from ASCII fields, by [add_student] and
    [update_student], whatever their outcome. *)
Theorem rows_validated_kept (name roll department email phone now : str)
    (student_id : option Z) (k : Z) (st : Student.t) (db : Database.store)
    (tbl : Database.table Database.student_row) :
  ascii_str name → ascii_str roll → ascii_str department → ascii_str email →
  Student.init name roll department email phone student_id = Ok st →
  Database.students db = Some tbl → rows_validated tbl →
  rows_validated Database.empty_table
  ∧ (∃ tbl', Database.students (Database.add_student now st db).2 = Some tbl'
             ∧ rows_validated tbl')
  ∧ (∃ tbl', Database.students (Database.update_student now st db).2 = Some tbl'
             ∧ rows_validated tbl')
  ∧ (∃ tbl', Database.students (Database.delete_student k db).2 = Some tbl'
             ∧ rows_validated tbl').
Proof.
  intros Hn Hr Hd He Hst Hdb Hv. split_and!.
  - apply rows_validated_empty.
  - destruct (Database.add_student now st db) as [[i|e] db'] eqn:H.
    + pose proof (add_student_ok now st db tbl i db' Hdb H) as (_ & _ & _ & ->).
      eexists. split; [done|]. apply rows_validated_insert; [done|].
      by apply (written_row_validated name roll department email phone student_id).
    + apply add_student_raise in H as ->. by exists tbl.
  - destruct (Database.update_student now st db) as [[b|e] db'] eqn:H.
    2: { apply update_student_raise in H as ->. by exists tbl. }
    destruct (Student._id st) as [i|] eqn:Hid.
    2: { rewrite (update_student_not_found now st db tbl) in H; [done..|].
         by rewrite Hid. }
    destruct (Database.rows tbl !! i) as [old|] eqn:Hi.
    2: { rewrite (update_student_not_found now st db tbl) in H; [done..|].
         by rewrite Hid. }
    assert (Hfr : ¬ roll_taken_by_other tbl i (Student._roll st)).
    { intros H'. by rewrite (update_student_roll_taken now st db tbl i) in H. }
    assert (Hfe : ¬ email_taken_by_other tbl i (Student._email st)).
    { intros H'. by rewrite (update_student_email_taken now st db tbl i) in H. }
    rewrite (update_student_updates now st db tbl i old) in H by done.
    injection H as _ <-. eexists. split; [done|].
    apply rows_validated_insert; [done|].
    by apply (written_row_validated name roll department email phone student_id).
  - rewrite (delete_student_result k db tbl Hdb). eexists. split; [done|].
    by apply rows_validated_delete.
Qed.

Lemma rows_validated_kept_witness :
  let st := Student.mk None (lit "Ada Lovelace") (lit "CS001") (lit "Physics")
              (lit "ada@example.com") [] in
  let db := Database.mk_store (Some Database.empty_table) None in
  Student.init (lit "ada lovelace") (lit "cs001") (lit "physics")
    (lit "Ada@Example.com") [] None = Ok st
  ∧ ∃ tbl', Database.students (Database.add_student (lit "t1") st db).2 = Some tbl'
            ∧ rows_validated tbl'.
Proof.
  intros st db.
  assert (Hst : Student.init (lit "ada lovelace") (lit "cs001") (lit "physics")
                  (lit "Ada@Example.com") [] None = Ok st)
    by (vm_compute; reflexivity).
  split; [exact Hst|].
  refine (proj1 (proj2 (rows_validated_kept _ _ _ _ _ (lit "t1") _ 0 st db _
                          _ _ _ _ Hst eq_refl rows_validated_empty)));
    unfold ascii_str; cbv; repeat constructor.
Defined.




Section like_operator.

Import Database.

Implicit Types (p q s : str).





End like_operator.





Section departments.

Import Database.
Local Open Scope Z_scope.

Implicit Types (db : store) (tbl : table student_row) (d : str) (ds : list str).

Lemma str_lt_spec a b : str_lt a b = true ↔ str_le a b = true ∧ a ≠ b.
Proof.
  unfold str_lt. rewrite andb_true_iff, negb_true_iff, bool_decide_eq_false. done.
Qed.

Lemma str_lt_trans a b c : str_lt a b = true → str_lt b c = true → str_lt a c = true.
Proof.
  rewrite !str_lt_spec. intros [H1 Hn1] [H2 Hn2]. split; [by eapply str_le_trans|].
  intros ->. apply Hn1. by apply str_le_antisym.
Qed.

Lemma elem_of_insert_distinct x y ds : y ∈ insert_distinct x ds ↔ y = x ∨ y ∈ ds.
Proof.
  induction ds as [|z ds IH]; cbn.
  - rewrite list_elem_of_singleton, elem_of_nil. tauto.
  - case_bool_decide as Hxz.
    + subst. rewrite elem_of_cons. tauto.
    + destruct (str_le x z); rewrite !elem_of_cons, ?IH; tauto.
Qed.

Lemma insert_distinct_sorted x ds :
  StronglySorted (λ a b, str_lt a b = true) ds →
  StronglySorted (λ a b, str_lt a b = true) (insert_distinct x ds).
Proof.
  induction 1 as [|z ds Hds IH Hz]; cbn; [by repeat constructor|].
  case_bool_decide as Hxz; [by constructor|].
  destruct (str_le x z) eqn:Hle.
  - constructor; [by constructor|].
    assert (Hlt : str_lt x z = true) by by apply str_lt_spec.
    constructor; [done|].
    eapply Forall_impl; [exact Hz|]. intros y Hy. by eapply str_lt_trans.
  - constructor; [done|]. apply Forall_forall. intros y Hy.
    apply elem_of_insert_distinct in Hy as [->|Hy].
    + apply str_lt_spec. split; [|done].
      destruct (str_le_total x z); congruence.
    + by eapply Forall_forall in Hz.
Qed.

Lemma distinct_departments_sorted tbl :
  StronglySorted (λ a b, str_lt a b = true) (distinct_departments tbl).
Proof.
  unfold distinct_departments.
  induction (_ <$> scan tbl) as [|d l IH]; [constructor|].
  cbn. by apply insert_distinct_sorted.
Qed.

Lemma elem_of_distinct_departments tbl d :
  d ∈ distinct_departments tbl ↔ ∃ k r, rows tbl !! k = Some r ∧ col_department r = d.
Proof.
  unfold distinct_departments.
  assert (H : ∀ l : list str, d ∈ foldr insert_distinct [] l ↔ d ∈ l).
  { induction l as [|x l IH]; [done|]. cbn.
    rewrite elem_of_insert_distinct, elem_of_cons, IH. done. }
  rewrite H, list_elem_of_fmap. split.
  - intros ([k r] & -> & Hin%elem_of_scan). by exists k, r.
  - intros (k & r & Hk & <-). exists (k, r). by rewrite elem_of_scan.
Qed.

Lemma sorted_NoDup ds : StronglySorted (λ a b, str_lt a b = true) ds → NoDup ds.
Proof.
  induction 1 as [|d ds Hds IH Hd]; constructor; [|done].
  intros Hin. eapply Forall_forall in Hd; [|exact Hin].
  by apply str_lt_spec in Hd as [_ ?].
Qed.

Lemma department_rows_split d (l : list (Z * student_row)) :
  length l
  = (length (department_rows d l)
     + length (filter (λ kr, col_department kr.2 ≠ d) l))%nat.
Proof.
  unfold department_rows. induction l as [|kr l IH]; [done|].
  rewrite !filter_cons. do 2 case_decide; cbn; try lia; congruence.
Qed.

Lemma department_rows_other d d' (l : list (Z * student_row)) :
  d' ≠ d →
  department_rows d' (filter (λ kr, col_department kr.2 ≠ d) l) = department_rows d' l.
Proof.
  intros Hne. unfold department_rows. induction l as [|kr l IH]; [done|].
  rewrite !filter_cons. repeat case_decide; rewrite ?filter_cons; repeat case_decide;
    try congruence; by rewrite IH.
Qed.

(** The rows are the disjoint union of the rows of the departments. *)
Lemma department_rows_partition ds (l : list (Z * student_row)) :
  NoDup ds → (∀ kr, kr ∈ l → col_department kr.2 ∈ ds) →
  foldr (λ d n, (length (department_rows d l) + n)%nat) 0%nat ds = length l.
Proof.
  intros Hnd. revert l. induction Hnd as [|d ds Hd Hnd IH]; intros l Hl.
  - destruct l as [|kr l]; [done|]. specialize (Hl kr (list_elem_of_here _ _)).
    by apply elem_of_nil in Hl.
  - cbn [foldr]. rewrite (department_rows_split d l). f_equal.
    rewrite <- (IH (filter (λ kr, col_department kr.2 ≠ d) l)).
    + clear IH Hl Hnd. induction ds as [|d' ds IH]; [done|]. cbn [foldr].
      rewrite department_rows_other by (intros ->; apply Hd; left).
      f_equal. apply IH. intros Hin. apply Hd. by right.
    + intros kr [Hne Hin]%list_elem_of_filter.
      specialize (Hl kr Hin). apply elem_of_cons in Hl as [?|?]; done.
Qed.

End departments.

Lemma count_by_department_entry (db : Database.store)
    (tbl : Database.table Database.student_row) counts d n :
  Database.students db = Some tbl →
  Database.get_student_count_by_department db = Ok counts →
  (d, n) ∈ counts →
  n = Z.of_nat (length (department_rows d (Database.scan tbl))) ∧ (1 ≤ n)%Z.
Proof.
  intros Hdb. unfold Database.get_student_count_by_department. rewrite Hdb.
  intros [= <-] (d' & [= -> ->] & Hd)%list_elem_of_fmap.
  split; [done|].
  apply elem_of_distinct_departments in Hd as (k & r & Hk & Hr).
  assert (Hin : (k, r) ∈ department_rows (Database.col_department r) (Database.scan tbl)).
  { apply list_elem_of_filter. split; [done|]. by apply elem_of_scan. }
  rewrite <- Hr. fold (department_rows (Database.col_department r) (Database.scan tbl)).
  destruct (department_rows _ _) as [|? ?]; [by apply elem_of_nil in Hin|].
  cbn [length]. lia.
Qed.

(** X13: [get_departments] returns the departments of the stored students,
    each once, in strictly increasing order. *)
Theorem get_departments_spec (db : Database.store)
    (tbl : Database.table Database.student_row) :
  Database.students db = Some tbl →
  ∃ ds,
    Database.get_departments db = Ok ds
    ∧ StronglySorted (λ a b, str_lt a b = true) ds
    ∧ NoDup ds
    ∧ ∀ d, d ∈ ds ↔ ∃ k r, Database.rows tbl !! k = Some r
                           ∧ Database.col_department r = d.
Proof.
  intros Hdb. unfold Database.get_departments. rewrite Hdb.
  eexists. split_and!; [done| | |].
  - apply distinct_departments_sorted.
  - apply sorted_NoDup, distinct_departments_sorted.
  - apply elem_of_distinct_departments.
Qed.

Lemma get_departments_spec_witness :
  let row name roll department email :=
    Database.mk_student_row (lit name) (lit roll) (lit department) (lit email) []
      (lit "t0") (lit "t0") in
  let tbl := Database.mk_table
               {[ 1%Z := row "Ada" "EE001" "Physics" "ada@example.com";
                  2%Z := row "Bob" "CS001" "Chemistry" "bob@example.com";
                  3%Z := row "Cy" "CS002" "Physics" "cy@example.com" ]} 3 in
  let db := Database.mk_store (Some tbl) None in
  Database.students db = Some tbl
  ∧ Database.get_departments db = Ok [lit "Chemistry"; lit "Physics"].
Proof.
  intros row tbl db.
  assert (Hdb : Database.students db = Some tbl) by reflexivity.
  split; [exact Hdb|].
  destruct (get_departments_spec db tbl Hdb) as (ds & H & _).
  rewrite H. f_equal. injection H as <-. vm_compute. reflexivity.
Defined.

(** X14: [get_student_count_by_department] lists the departments of
    [get_departments] in the same order, each with the number of stored
    students of that department, which is at least 1; the numbers add up to
    the number of stored students. *)
Theorem get_student_count_by_department_spec (db : Database.store)
    (tbl : Database.table Database.student_row) :
  Database.students db = Some tbl →
  ∃ counts,
    Database.get_student_count_by_department db = Ok counts
    ∧ Database.get_departments db = Ok counts.*1
    ∧ (∀ d n, (d, n) ∈ counts →
              n = Z.of_nat (length (department_rows d (Database.scan tbl)))
              ∧ (1 ≤ n)%Z)
    ∧ foldr Z.add 0%Z counts.*2 = Database.count_rows tbl.
Proof.
  intros Hdb.
  unfold Database.get_student_count_by_department, Database.get_departments.
  rewrite Hdb. eexists. split_and!; [done| | |].
  - f_equal. rewrite <- list_fmap_compose. by rewrite list_fmap_id.
  - intros d n Hin. eapply (count_by_department_entry db tbl); [done| |exact Hin].
    unfold Database.get_student_count_by_department. by rewrite Hdb.
  - rewrite <- list_fmap_compose. unfold Database.count_rows.
    rewrite <- length_scan.
    rewrite <- (department_rows_partition (Database.distinct_departments tbl)
                  (Database.scan tbl)).
    + induction (Database.distinct_departments tbl) as [|d ds IH]; [done|].
      cbn [fmap list_fmap foldr compose snd]. rewrite IH.
      unfold department_rows. lia.
    + apply sorted_NoDup, distinct_departments_sorted.
    + intros [k r] Hin%elem_of_scan. apply elem_of_distinct_departments.
      by exists k, r.
Qed.

Lemma get_student_count_by_department_spec_witness :
  let row name roll department email :=
    Database.mk_student_row (lit name) (lit roll) (lit department) (lit email) []
      (lit "t0") (lit "t0") in
  let tbl := Database.mk_table
               {[ 1%Z := row "Ada" "EE001" "Physics" "ada@example.com";
                  2%Z := row "Bob" "CS001" "Chemistry" "bob@example.com";
                  3%Z := row "Cy" "CS002" "Physics" "cy@example.com" ]} 3 in
  let db := Database.mk_store (Some tbl) None in
  Database.students db = Some tbl
  ∧ Database.get_student_count_by_department db
    = Ok [(lit "Chemistry", 1%Z); (lit "Physics", 2%Z)].
Proof.
  intros row tbl db.
  assert (Hdb : Database.students db = Some tbl) by reflexivity.
  split; [exact Hdb|].
  destruct (get_student_count_by_department_spec db tbl Hdb) as (counts & H & _).
  rewrite H. f_equal. injection H as <-. vm_compute. reflexivity.
Defined.



(** ** utils.py: more on [validate_csv_data] *)

Section batch_more.

Import CSVHandler.

Implicit Types (row : csv_row) (rows earlier : list csv_row) (i : nat).

Lemma row_errors_nil i row earlier :
  row_errors i row earlier = []
  ↔ ∃ s, row_student row = Ok s
         ∧ (Student._roll s ∉ Student._roll <$> valid_students earlier)
         ∧ (Student._email s ∉ Student._email <$> valid_students earlier).
Proof.
  unfold row_errors. destruct (row_student row) as [s|[m|m]].
  - split.
    + intros [H1 H2]%app_eq_nil. exists s. split; [done|].
      split; intros Hin; [rewrite bool_decide_eq_true_2 in H1 by done
                         | rewrite bool_decide_eq_true_2 in H2 by done]; done.
    + intros (s' & [= <-] & H1 & H2). by rewrite !bool_decide_eq_false_2.
  - split; [done | by intros (? & ? & _)].
  - split; [done | by intros (? & ? & _)].
Qed.

Lemma row_errors_length i row earlier : (length (row_errors i row earlier) ≤ 2)%nat.
Proof.
  unfold row_errors. destruct (row_student row) as [s|[m|m]]; cbn; [|lia..].
  rewrite length_app. do 2 case_bool_decide; cbn; lia.
Qed.

Lemma valid_students_app rows1 rows2 :
  valid_students (rows1 ++ rows2) = valid_students rows1 ++ valid_students rows2.
Proof. unfold valid_students. by rewrite bind_app. Qed.

Lemma clean_from i earlier rows :
  NoDup (Student._roll <$> valid_students earlier) →
  NoDup (Student._email <$> valid_students earlier) →
  mjoin (row_errors_from i earlier rows) = []
  ↔ Forall (λ row, ∃ s, row_student row = Ok s) rows
    ∧ NoDup (Student._roll <$> valid_students (earlier ++ rows))
    ∧ NoDup (Student._email <$> valid_students (earlier ++ rows)).
Proof.
  revert i earlier. induction rows as [|row rest IH]; intros i earlier Hr He.
  - rewrite app_nil_r. cbn. split; [by intros _ | done].
  - cbn [row_errors_from mjoin list_join]. rewrite app_nil, row_errors_nil.
    assert (Hsnoc : ∀ s, row_student row = Ok s →
              valid_students (earlier ++ [row]) = valid_students earlier ++ [s]).
    { intros s Hs. by rewrite valid_students_snoc, Hs. }
    replace (earlier ++ row :: rest) with ((earlier ++ [row]) ++ rest)
      by (by rewrite <- app_assoc).
    split.
    + intros [(s & Hs & Hnr & Hne) Hrest].
      apply IH in Hrest as (Hv & Hr' & He').
      * split_and!; [|done..]. constructor; [by exists s | done].
      * rewrite (Hsnoc s Hs), fmap_app. apply NoDup_app. split_and!; [done| |].
        -- intros x Hx ->%list_elem_of_singleton. done.
        -- apply NoDup_singleton.
      * rewrite (Hsnoc s Hs), fmap_app. apply NoDup_app. split_and!; [done| |].
        -- intros x Hx ->%list_elem_of_singleton. done.
        -- apply NoDup_singleton.
    + intros (Hv & Hr' & He'). apply Forall_cons in Hv as [[s Hs] Hv].
      assert (Hr1 : NoDup (Student._roll <$> valid_students (earlier ++ [row]))).
      { rewrite valid_students_app, fmap_app in Hr'. by apply NoDup_app in Hr' as [? _]. }
      assert (He1 : NoDup (Student._email <$> valid_students (earlier ++ [row]))).
      { rewrite valid_students_app, fmap_app in He'. by apply NoDup_app in He' as [? _]. }
      split.
      * exists s. split; [done|].
        rewrite (Hsnoc s Hs), fmap_app in Hr1, He1.
        apply NoDup_app in Hr1 as (_ & Hr1 & _). apply NoDup_app in He1 as (_ & He1 & _).
        split; intros Hin; [eapply Hr1 | eapply He1]; try exact Hin; by left.
      * apply IH; done.
Qed.

Lemma row_errors_from_count i earlier rows :
  (length (filter (λ es, es ≠ []) (row_errors_from i earlier rows))
   ≤ length (mjoin (row_errors_from i earlier rows)))%nat
  ∧ (length (mjoin (row_errors_from i earlier rows))
     ≤ 2 * length (filter (λ es, es ≠ []) (row_errors_from i earlier rows)))%nat
  ∧ (length (filter (λ es, es ≠ []) (row_errors_from i earlier rows))
     ≤ length rows)%nat.
Proof.
  revert i earlier. induction rows as [|row rest IH]; intros i earlier; [cbn; lia|].
  cbn [row_errors_from length].
  change (mjoin (?x :: ?l)) with (x ++ mjoin l). rewrite length_app, filter_cons.
  specialize (IH (S i) (earlier ++ [row])).
  pose proof (row_errors_length i row earlier).
  case_decide as Hne; cbn [length].
  - destruct (row_errors i row earlier); [done|]. cbn [length] in *. lia.
  - assert (row_errors i row earlier = []) as -> by (by destruct (row_errors _ _ _)).
    cbn [length]. lia.
Qed.

End batch_more.

(** X16: [validate_csv_data] returns no error exactly when every row of the
    batch passes validation and the validated rolls are pairwise distinct
    and the validated emails are pairwise distinct. *)
Theorem validate_csv_data_clean (rows : list CSVHandler.csv_row) :
  CSVHandler.validate_csv_data rows = Ok []
  ↔ Forall (λ row, ∃ s, row_student row = Ok s) rows
    ∧ NoDup (Student._roll <$> valid_students rows)
    ∧ NoDup (Student._email <$> valid_students rows).
Proof.
  rewrite validate_csv_data_batch_errors. unfold batch_errors.
  rewrite batch_row_errors_from.
  rewrite <- (clean_from 1 [] rows) by constructor.
  split; [by intros [= ->] | by intros ->].
Qed.

(** X17: every row gives at most two error strings, so the number of error
    strings lies between the number of offending rows and twice that
    number, and there are no more offending rows than rows. *)
Theorem validate_csv_data_count (rows : list CSVHandler.csv_row) :
  ∃ errors,
    CSVHandler.validate_csv_data rows = Ok errors
    ∧ (offending_rows rows ≤ length errors)%nat
    ∧ (length errors ≤ 2 * offending_rows rows)%nat
    ∧ (offending_rows rows ≤ length rows)%nat.
Proof.
  exists (batch_errors rows). split; [apply validate_csv_data_batch_errors|].
  unfold batch_errors, offending_rows. rewrite batch_row_errors_from.
  apply row_errors_from_count.
Qed.

(** ** gui.py: the import of a batch *)

Section import.

Import Database CSVHandler StudentManagementApp.

Implicit Types (data : list csv_row) (db : store) (tbl : table student_row).

(** Every row is counted once. *)
Lemma import_loop_counts clock j data counts db :
  let result := import_loop clock j data counts db in
  (result.1.1 + result.1.2 = counts.1 + counts.2 + length data)%nat.
Proof.
  revert j counts db. induction data as [|row rest IH]; intros j counts db; cbn zeta.
  - cbn. lia.
  - cbn [import_loop]. destruct (Student.init _ _ _ _ _ _) as [s|e].
    + destruct (add_student _ s db) as [[i|e] db'];
        (etrans; [apply IH|]); cbn; lia.
    + etrans; [apply IH|]. cbn. lia.
Qed.




End import.


(** X19: [_import_csv] changes the store only after a validation without
    error and a confirmation; and whenever the import runs, the imported and
    the failed students add up to the rows of the batch. *)
Theorem import_guarded (clock : nat → str) (students_data : list CSVHandler.csv_row)
    (confirm : bool) (db : Database.store) :
  ((StudentManagementApp._import_csv clock students_data confirm db).2 ≠ db →
   confirm = true ∧ CSVHandler.validate_csv_data students_data = Ok [])
  ∧ ∀ imported_count error_count db',
      StudentManagementApp._import_csv clock students_data confirm db
      = (StudentManagementApp.import_complete imported_count error_count, db') →
      (imported_count + error_count = length students_data)%nat.
Proof.
  unfold StudentManagementApp._import_csv.
  case_bool_decide as Hnil; [by split|].
  destruct (CSVHandler.validate_csv_data students_data) as [errors|[m|m]];
    [|by split..].
  case_bool_decide as Herr; cbn [negb]; [|by split].
  destruct confirm; [|by split].
  pose proof (import_loop_counts clock 0 students_data (0%nat, 0%nat) db) as Hc.
  cbn zeta in Hc.
  destruct (StudentManagementApp.import_loop _ _ _ _ _) as [[a b] db1].
  cbn in Hc. split.
  - intros _. by rewrite Herr.
  - intros ? ? ? [= <- <- <-]. lia.
Qed.


Lemma import_guarded_witness :
  let data := [ CSVHandler.mk_row (lit "Alice") (lit "cs001") (lit "Physics")
                  (lit "alice@example.com") None;
                CSVHandler.mk_row (lit "Alicia") (lit "cs001") (lit "Physics")
                  (lit "alicia@example.com") None ] in
  let db := Database.mk_store (Some Database.empty_table) None in
  ∃ message,
    StudentManagementApp._import_csv (λ _, lit "t") data true db
    = (StudentManagementApp.validation_error message, db)
    ∧ ¬ ((StudentManagementApp._import_csv (λ _, lit "t") data true db).2 ≠ db).
Proof.
  intros data db. eexists. split; [vm_compute; reflexivity|].
  intros H.
  destruct (proj1 (import_guarded (λ _, lit "t") data true db) H) as [_ Hval].
  vm_compute in Hval. discriminate Hval.
Defined.

(** ** utils.py: [import_students_from_csv] *)

Section import_rows.

Import CSVHandler.

Lemma get_stripped_inr key row v : get_stripped key row = inr v → strip v = v.
Proof.
  unfold get_stripped. destruct (row !! lit key) as [[value|]|]; intros [= <-];
    [apply strip_idemp | done].
Qed.

Lemma clean_row_inr row_num row student_data :
  clean_row row_num row = inr student_data → cleaned student_data.
Proof.
  unfold clean_row.
  destruct (get_stripped "Name" row) as [|name] eqn:Hn; [done|].
  destruct (get_stripped "Roll" row) as [|roll] eqn:Hr; [done|].
  destruct (get_stripped "Department" row) as [|department] eqn:Hd; [done|].
  destruct (get_stripped "Email" row) as [|email] eqn:He; [done|].
  destruct (get_stripped "Phone" row) as [|phone] eqn:Hp; [done|].
  cbn zeta.
  destruct name; [done|]. destruct roll; [done|]. destruct department; [done|].
  destruct email; [done|]. cbn [is_empty]. intros [= <-]. unfold cleaned. cbn.
  apply get_stripped_inr in Hn, Hr, Hd, He, Hp. split_and!; try done. by exists phone.
Qed.

Lemma clean_rows_inr row_num rows students_data :
  clean_rows row_num rows = inr students_data →
  length students_data = length rows ∧ Forall cleaned students_data.
Proof.
  revert row_num students_data. induction rows as [|row rest IH];
    intros row_num students_data; cbn [clean_rows].
  - intros [= <-]. by split.
  - destruct (clean_row row_num row) as [|student_data] eqn:Hrow; [done|].
    destruct (clean_rows (S row_num) rest) as [|data] eqn:Hrest; [done|].
    intros [= <-]. destruct (IH _ _ Hrest) as [Hlen Hall].
    split; [cbn; by rewrite Hlen|]. constructor; [|done].
    by apply (clean_row_inr row_num row).
Qed.

(** A cleaned row does not fail validation for an empty field. *)
Lemma cleaned_row_student student_data e :
  cleaned student_data → row_student student_data = Raise e →
  e = ValueError (lit
        "Roll number can only contain letters, numbers, hyphens, and underscores")
  ∨ e = ValueError (lit "Invalid email format")
  ∨ e = ValueError (lit "Invalid phone number format").
Proof.
  intros (Hn & Hn' & Hr & Hr' & Hd & Hd' & He & He' & _).
  unfold row_student, Student.init.
  unfold Student._validate_name. rewrite is_empty_strip, Hn.
  destruct (row_name student_data); [done|]. cbn [is_empty mbind result_bind].
  unfold Student._validate_roll. rewrite is_empty_strip, Hr.
  destruct (row_roll student_data) as [|c roll]; [done|]. cbn [is_empty]. cbn zeta.
  destruct (re_match _ _); cbn [negb mbind result_bind]; [|intros [= <-]; auto].
  unfold Student._validate_department. rewrite is_empty_strip, Hd.
  destruct (row_department student_data); [done|]. cbn [is_empty mbind result_bind].
  unfold Student._validate_email. rewrite is_empty_strip, He.
  destruct (row_email student_data) as [|c' email]; [done|]. cbn [is_empty]. cbn zeta.
  destruct (re_match _ _); cbn [negb mbind result_bind]; [|intros [= <-]; auto].
  unfold Student._validate_phone. destruct (is_empty _); [done|]. cbn zeta.
  destruct (re_match _ _); cbn [negb mbind result_bind]; [done|intros [= <-]; auto].
Qed.

End import_rows.

(** X20: when [import_students_from_csv] returns, it returns one row for
    each record of the reader, with name, roll, department and email
    stripped and not empty and the phone stripped; constructing a student
    from such a row can then only fail for the format of the roll, of the
    email or of the phone.  It raises, and names the columns, when a required
    column is not in the header. *)
Theorem import_students_from_csv_spec (fieldnames : list str)
    (rows : list (gmap str (option str))) :
  (∀ students_data,
     CSVHandler.import_students_from_csv fieldnames rows = Ok students_data →
     CSVHandler.required_columns ⊆ fieldnames
     ∧ length students_data = length rows
     ∧ Forall cleaned students_data
     ∧ ∀ student_data e,
         student_data ∈ students_data → row_student student_data = Raise e →
         e = ValueError (lit
               "Roll number can only contain letters, numbers, hyphens, and underscores")
         ∨ e = ValueError (lit "Invalid email format")
         ∨ e = ValueError (lit "Invalid phone number format"))
  ∧ (∀ col, col ∈ CSVHandler.required_columns → col ∉ fieldnames →
     ∃ missing_cols,
       col ∈ missing_cols
       ∧ CSVHandler.import_students_from_csv fieldnames rows
         = Raise (Exception (lit "Failed to import CSV: Missing required columns: "
                               ++ join (lit ", ") missing_cols))).
Proof.
  unfold CSVHandler.import_students_from_csv. cbn zeta. split.
  - intros students_data. case_bool_decide as Hmiss; cbn [negb]; [|done].
    destruct (CSVHandler.clean_rows 2 rows) as [|data] eqn:Hrows; [done|].
    intros [= <-]. destruct (clean_rows_inr 2 rows data Hrows) as [Hlen Hall].
    split_and!; [|done..|].
    + intros col Hcol. destruct (decide (col ∈ fieldnames)) as [|Hn]; [done|].
      assert (Hin : col ∈ filter (λ col, col ∉ fieldnames) CSVHandler.required_columns)
        by by apply list_elem_of_filter.
      rewrite Hmiss in Hin. by apply elem_of_nil in Hin.
    + intros student_data e Hin. apply cleaned_row_student.
      by eapply Forall_forall in Hall.
  - intros col Hcol Hn.
    exists (filter (λ col, col ∉ fieldnames) CSVHandler.required_columns).
    split; [by apply list_elem_of_filter|].
    rewrite bool_decide_eq_false_2; [done|].
    intros Hnil.
    assert (Hin : col ∈ filter (λ col, col ∉ fieldnames) CSVHandler.required_columns)
      by by apply list_elem_of_filter.
    rewrite Hnil in Hin. by apply elem_of_nil in Hin.
Qed.

Lemma import_students_from_csv_spec_witness :
  let fieldnames := [lit "Name"; lit "Roll"; lit "Department"; lit "Email"] in
  let row : gmap str (option str) :=
    {[ lit "Name" := Some (lit " Ada "); lit "Roll" := Some (lit "cs001");
       lit "Department" := Some (lit "Physics");
       lit "Email" := Some (lit "ada@example.com ") ]} in
  let student_data := CSVHandler.mk_row (lit "Ada") (lit "cs001") (lit "Physics")
                        (lit "ada@example.com") (Some []) in
  CSVHandler.import_students_from_csv fieldnames [row] = Ok [student_data]
  ∧ cleaned student_data.
Proof.
  intros fieldnames row student_data.
  assert (H : CSVHandler.import_students_from_csv fieldnames [row] = Ok [student_data])
    by (vm_compute; reflexivity).
  split; [exact H|].
  destruct (proj1 (import_students_from_csv_spec fieldnames [row]) _ H)
    as (_ & _ & Hall & _).
  by apply Forall_cons in Hall as [? _].
Defined.

(** ** gui.py: the student form *)

Lemma init_raise_any_id name roll department email phone student_id student_id' e :
  Student.init name roll department email phone student_id = Raise e →
  Student.init name roll department email phone student_id' = Raise e.
Proof.
  unfold Student.init.
  destruct (Student._validate_name name); [|done].
  destruct (Student._validate_roll roll); [|done].
  destruct (Student._validate_department department); [|done].
  destruct (Student._validate_email email); [|done].
  by destruct (Student._validate_phone phone).
Qed.

(** X21: the form hands a student to its callback exactly when the four
    required fields are not empty once stripped and the construction from the
    stripped fields succeeds; a phone of white space only is stripped to the
    empty phone before the construction, so it is treated as a phone that was
    not given; and an error dialog of the form shows one of four "required"
    messages or one of the three format messages of the construction, never
    a "cannot be empty" message. *)
Theorem form_save_spec (name roll department email phone : str)
    (student_id : option Z) :
  (∀ st,
     StudentForm._save name roll department email phone student_id
     = StudentForm.on_save st
     ↔ strip name ≠ [] ∧ strip roll ≠ [] ∧ strip department ≠ [] ∧ strip email ≠ []
       ∧ Student.init (strip name) (strip roll) (strip department) (strip email)
           (strip phone) student_id = Ok st)
  ∧ (Forall (λ c, isspace c = true) phone →
     StudentForm._save name roll department email phone student_id
     = StudentForm._save name roll department email [] student_id)
  ∧ (∀ title message,
       StudentForm._save name roll department email phone student_id
       = StudentForm.showerror title message →
       (title = lit "Error"
        ∧ message ∈ [lit "Name is required"; lit "Roll number is required";
                     lit "Department is required"; lit "Email is required"])
       ∨ (title = lit "Validation Error"
          ∧ message ∈ [lit
              "Roll number can only contain letters, numbers, hyphens, and underscores";
              lit "Invalid email format"; lit "Invalid phone number format"])).
Proof.
  split_and!.
  - intros st. unfold StudentForm._save. cbn zeta.
    destruct (strip name) eqn:Hn; [by split; [|intros [? _]]|].
    destruct (strip roll) eqn:Hr; [by split; [|intros (_ & ? & _)]|].
    destruct (strip department) eqn:Hd; [by split; [|intros (_ & _ & ? & _)]|].
    destruct (strip email) eqn:He; [by split; [|intros (_ & _ & _ & ? & _)]|].
    cbn [is_empty]. destruct (Student.init _ _ _ _ _ _) as [s|[m|m]].
    + split; [by intros [= ->] | by intros (_ & _ & _ & _ & [= ->])].
    + split; [done | by intros (_ & _ & _ & _ & ?)].
    + split; [done | by intros (_ & _ & _ & _ & ?)].
  - intros Hsp. unfold StudentForm._save. cbn zeta. by rewrite (strip_spaces phone).
  - intros title message. unfold StudentForm._save. cbn zeta.
    destruct (strip name) as [|c1 n] eqn:Hn;
      [intros [= <- <-]; left; split; [done|set_solver]|].
    destruct (strip roll) as [|c2 r] eqn:Hr;
      [intros [= <- <-]; left; split; [done|set_solver]|].
    destruct (strip department) as [|c3 d] eqn:Hd;
      [intros [= <- <-]; left; split; [done|set_solver]|].
    destruct (strip email) as [|c4 e] eqn:He;
      [intros [= <- <-]; left; split; [done|set_solver]|].
    cbn [is_empty].
    pose proof (init_raises (c1 :: n) (c2 :: r) (c3 :: d) (c4 :: e) (strip phone)
                  student_id) as Hraise.
    destruct (Student.init _ _ _ _ _ _) as [s|[m|m]] eqn:Hinit; [done| |done].
    intros [= <- <-]. right. split; [done|].
    assert (Hc : cleaned (CSVHandler.mk_row (c1 :: n) (c2 :: r) (c3 :: d) (c4 :: e)
                            (Some (strip phone)))).
    { unfold cleaned. cbn [CSVHandler.row_name CSVHandler.row_roll
        CSVHandler.row_department CSVHandler.row_email CSVHandler.row_phone].
      rewrite <- Hn, <- Hr, <- Hd, <- He, !strip_idemp.
      rewrite Hn, Hr, Hd, He. split_and!; try done. exists (strip phone).
      by rewrite strip_idemp. }
    assert (Hrs : row_student (CSVHandler.mk_row (c1 :: n) (c2 :: r) (c3 :: d)
                                 (c4 :: e) (Some (strip phone)))
                  = Raise (ValueError m)).
    { unfold row_student. cbn [CSVHandler.row_name CSVHandler.row_roll
        CSVHandler.row_department CSVHandler.row_email CSVHandler.row_phone
        from_option id].
      by apply (init_raise_any_id _ _ _ _ _ student_id). }
    destruct (cleaned_row_student _ _ Hc Hrs) as [[= ->]|[[= ->]|[= ->]]]; set_solver.
Qed.

Lemma form_save_spec_witness :
  Forall (λ c, isspace c = true) (lit "  ")
  ∧ StudentForm._save (lit "ada") (lit "cs001") (lit "physics") (lit "ada@example.com")
      (lit "  ") None
    = StudentForm.on_save
        (Student.mk None (lit "Ada") (lit "CS001") (lit "Physics")
           (lit "ada@example.com") []).
Proof.
  assert (Hsp : Forall (λ c, isspace c = true) (lit "  ")) by (repeat constructor).
  split; [exact Hsp|].
  rewrite (proj1 (proj2 (form_save_spec (lit "ada") (lit "cs001") (lit "physics")
                           (lit "ada@example.com") (lit "  ") None)) Hsp).
  vm_compute. reflexivity.
Defined.

(** ** utils.py: the summary report *)

Section summary.

Lemma count_step_comm departments a b :
  count_step (count_step departments a) b = count_step (count_step departments b) a.
Proof.
  unfold count_step.
  destruct (decide (Student._department a = Student._department b)) as [Heq|Hne].
  - rewrite Heq, !lookup_insert_eq. done.
  - rewrite !(lookup_insert_ne _ _ _ _) by congruence.
    by rewrite insert_insert_ne.
Qed.

Lemma count_fold_perm (l l' : list Student.t) departments :
  l ≡ₚ l' → foldl count_step departments l = foldl count_step departments l'.
Proof.
  intros H. revert departments.
  induction H as [|x l l' _ IH|x y l|l l' l'' _ IH1 _ IH2]; intros departments.
  - done.
  - cbn. apply IH.
  - cbn. by rewrite count_step_comm.
  - by rewrite IH1, IH2.
Qed.

End summary.

(** X22: the summary report does not depend on the order of the students. *)
Theorem summary_report_permutation (now : str) (format_percentage : nat → nat → str)
    (students students' : list Student.t) :
  students ≡ₚ students' →
  ReportGenerator.generate_summary_report now format_percentage students
  = ReportGenerator.generate_summary_report now format_percentage students'.
Proof.
  intros H. unfold ReportGenerator.generate_summary_report.
  destruct students as [|s l], students' as [|s' l'];
    [done | by apply Permutation_nil_cons in H
     | by symmetry in H; apply Permutation_nil_cons in H |].
  rewrite !bool_decide_eq_false_2 by done. cbn zeta.
  rewrite (Permutation_length H).
  change (foldl _ ∅ (s :: l)) with (foldl count_step ∅ (s :: l)).
  change (foldl _ ∅ (s' :: l')) with (foldl count_step ∅ (s' :: l')).
  by rewrite (count_fold_perm _ _ ∅ H).
Qed.

Lemma summary_report_permutation_witness :
  let a := Student.mk None (lit "Alice") (lit "CS001") (lit "Physics")
             (lit "alice@example.com") [] in
  let b := Student.mk None (lit "Bob") (lit "EE001") (lit "Chemistry")
             (lit "bob@example.com") [] in
  [a; b] ≡ₚ [b; a]
  ∧ ReportGenerator.generate_summary_report (lit "t") (λ _ _, lit "50.0") [a; b]
    = ReportGenerator.generate_summary_report (lit "t") (λ _ _, lit "50.0") [b; a].
Proof.
  intros a b.
  assert (H : [a; b] ≡ₚ [b; a]) by apply Permutation_swap.
  split; [exact H|].
  exact (summary_report_permutation (lit "t") (λ _ _, lit "50.0") _ _ H).
Defined.

(** ** models.py: case and users *)

Section case_insensitive.

Implicit Types (s : str) (c : N).

Lemma ascii_str_reverse s : ascii_str s → ascii_str (reverse s).
Proof. apply Forall_reverse. Qed.

Lemma ascii_str_lstrip s : ascii_str s → ascii_str (lstrip s).
Proof.
  induction 1 as [|c t Hc Ht IH]; simpl; [constructor|].
  destruct (isspace c); [done | by constructor].
Qed.

Section bind_strip.

Variable f : N → str.
Hypothesis f_stable : ∀ c, is_ascii c = true → char_stable f c = true.

Lemma lstrip_bind s : ascii_str s → lstrip (s ≫= f) = lstrip s ≫= f.
Proof.
  induction 1 as [|c s Hc _ IH]; [done|].
  destruct (char_stable_inv _ _ (f_stable c Hc)) as (d & Hd & _ & Hsp & _).
  cbn. rewrite Hd. cbn. rewrite Hsp. destruct (isspace c); [done|].
  cbn. by rewrite Hd.
Qed.

Lemma reverse_bind s : ascii_str s → reverse (s ≫= f) = reverse s ≫= f.
Proof.
  induction 1 as [|c s Hc _ IH]; [done|].
  destruct (char_stable_inv _ _ (f_stable c Hc)) as (d & Hd & _).
  rewrite bind_cons, Hd, reverse_app, IH, (reverse_cons s c), bind_app.
  rewrite bind_cons, Hd. done.
Qed.

Lemma strip_bind s : ascii_str s → strip (s ≫= f) = strip s ≫= f.
Proof.
  intros Hs. unfold strip, rstrip.
  rewrite lstrip_bind, reverse_bind, lstrip_bind, reverse_bind; try done.
  - by apply ascii_str_lstrip, ascii_str_reverse, ascii_str_lstrip.
  - by apply ascii_str_reverse, ascii_str_lstrip.
  - by apply ascii_str_lstrip.
Qed.

Lemma is_empty_bind s : ascii_str s → is_empty (s ≫= f) = is_empty s.
Proof.
  destruct 1 as [|c s Hc _]; [done|].
  destruct (char_stable_inv _ _ (f_stable c Hc)) as (d & Hd & _).
  cbn. by rewrite Hd.
Qed.

End bind_strip.

(** A case mapping followed by the other one is the other one. *)
Lemma upper_lower_char c :
  is_ascii c = true →
  (to_lower_full c ≫= to_upper_full) = to_upper_full c
  ∧ (to_upper_full c ≫= to_lower_full) = to_lower_full c.
Proof.
  intros Hc.
  assert (H : bool_decide ((to_lower_full c ≫= to_upper_full) = to_upper_full c)
              && bool_decide ((to_upper_full c ≫= to_lower_full) = to_lower_full c)
              = true).
  { revert c Hc. apply ascii_forall. vm_compute. reflexivity. }
  apply andb_true_iff in H as [H1%bool_decide_eq_true H2%bool_decide_eq_true]. done.
Qed.

Lemma upper_lower s : ascii_str s → upper (lower s) = upper s.
Proof.
  unfold upper, lower. induction 1 as [|c s Hc _ IH]; [done|].
  cbn. rewrite bind_app. f_equal; [by apply upper_lower_char | exact IH].
Qed.

Lemma lower_upper s : ascii_str s → lower (upper s) = lower s.
Proof.
  unfold upper, lower. induction 1 as [|c s Hc _ IH]; [done|].
  cbn. rewrite bind_app. f_equal; [by apply upper_lower_char | exact IH].
Qed.

Lemma validate_roll_normal s :
  ascii_str s → Student._validate_roll (upper s) = Student._validate_roll s.
Proof.
  intros Hs. unfold Student._validate_roll. rewrite !is_empty_strip. cbn zeta.
  unfold upper. rewrite strip_bind by (apply upper_char_stable || done).
  rewrite is_empty_bind by (apply upper_char_stable || by apply ascii_str_strip).
  by rewrite bind_idemp by (apply upper_char_stable || by apply ascii_str_strip).
Qed.

Lemma validate_email_normal s :
  ascii_str s → Student._validate_email (lower s) = Student._validate_email s.
Proof.
  intros Hs. unfold Student._validate_email. rewrite !is_empty_strip. cbn zeta.
  unfold lower. rewrite strip_bind by (apply lower_char_stable || done).
  rewrite is_empty_bind by (apply lower_char_stable || by apply ascii_str_strip).
  by rewrite bind_idemp by (apply lower_char_stable || by apply ascii_str_strip).
Qed.

Lemma ascii_str_bind f s :
  (∀ c, is_ascii c = true → char_stable f c = true) → ascii_str s → ascii_str (s ≫= f).
Proof.
  intros Hf. induction 1 as [|c s Hc _ IH]; [constructor|].
  destruct (char_stable_inv _ _ (Hf c Hc)) as (d & Hd & Hda & _).
  cbn. rewrite Hd. by constructor.
Qed.

End case_insensitive.

(** X23: the case of ASCII letters does not matter to the validation of a
    roll and of an email: two ASCII strings that differ in case only are
    validated to the same roll, or rejected with the same message, and
    likewise as emails. *)
Theorem validation_ignores_case (s1 s2 : str) :
  ascii_str s1 → ascii_str s2 → lower s1 = lower s2 →
  Student._validate_roll s1 = Student._validate_roll s2
  ∧ Student._validate_email s1 = Student._validate_email s2.
Proof.
  intros H1 H2 Heq. split.
  - rewrite <- (validate_roll_normal s1), <- (validate_roll_normal s2) by done.
    by rewrite <- (upper_lower s1), <- (upper_lower s2), Heq by done.
  - rewrite <- (validate_email_normal s1), <- (validate_email_normal s2) by done.
    by rewrite Heq.
Qed.

Lemma validation_ignores_case_witness :
  ascii_str (lit "cs-001a") ∧ ascii_str (lit "Cs-001A")
  ∧ lower (lit "cs-001a") = lower (lit "Cs-001A")
  ∧ Student._validate_roll (lit "cs-001a") = Student._validate_roll (lit "Cs-001A").
Proof.
  assert (H1 : ascii_str (lit "cs-001a")) by (unfold ascii_str; cbv; repeat constructor).
  assert (H2 : ascii_str (lit "Cs-001A")) by (unfold ascii_str; cbv; repeat constructor).
  assert (H3 : lower (lit "cs-001a") = lower (lit "Cs-001A")) by reflexivity.
  split_and!; [done..|].
  exact (proj1 (validation_ignores_case _ _ H1 H2 H3)).
Defined.

(** X24: a user is constructed exactly when the stripped name has at least
    three characters; the user then holds the stripped name and the password
    as given, and constructing a user again from its own name and password
    gives the same user; otherwise the empty-name message is raised when the
    name strips to nothing and the length message when it is shorter than
    three. *)
Theorem user_init_spec (username password : str) (user_id : option Z) :
  (∀ user, User.init username password user_id = Ok user
           ↔ (3 ≤ length (strip username))%nat
             ∧ user = User.mk user_id (strip username) password)
  ∧ (∀ user, User.init username password user_id = Ok user →
             User.init (User._username user) (User._password user) (User._id user)
             = Ok user)
  ∧ (strip username = [] →
     User.init username password user_id
     = Raise (ValueError (lit "Username cannot be empty")))
  ∧ (strip username ≠ [] → (length (strip username) < 3)%nat →
     User.init username password user_id
     = Raise (ValueError (lit "Username must be at least 3 characters long"))).
Proof.
  assert (Hiff : ∀ u p i user, User.init u p i = Ok user
                 ↔ (3 ≤ length (strip u))%nat ∧ user = User.mk i (strip u) p).
  { intros u p i user. unfold User.init, User._validate_username.
    rewrite is_empty_strip. cbn zeta.
    destruct (strip u) as [|c s] eqn:Hu; cbn [is_empty].
    { split; [done | intros [H _]; cbn in H; lia]. }
    destruct (Nat.ltb_spec (length (c :: s)) 3); cbn [mbind result_bind].
    - split; [done | intros [? _]; lia].
    - split; [by intros [= <-] | by intros [_ ->]]. }
  split_and!.
  - intros user. apply Hiff.
  - intros user [Hlen ->]%Hiff. cbn. apply Hiff. by rewrite strip_idemp.
  - intros Hu. unfold User.init, User._validate_username.
    by rewrite is_empty_strip, Hu.
  - intros Hu Hlen. unfold User.init, User._validate_username.
    rewrite is_empty_strip. cbn zeta. destruct (strip username); [done|].
    cbn [is_empty]. by rewrite (proj2 (Nat.ltb_lt _ _) Hlen).
Qed.

Lemma user_init_spec_witness :
  strip (lit " ab ") ≠ [] ∧ (length (strip (lit " ab ")) < 3)%nat
  ∧ User.init (lit " ab ") (lit "secret") None
    = Raise (ValueError (lit "Username must be at least 3 characters long")).
Proof.
  assert (H1 : strip (lit " ab ") ≠ []) by done.
  assert (H2 : (length (strip (lit " ab ")) < 3)%nat) by (vm_compute; lia).
  split_and!; [done..|].
  exact (proj2 (proj2 (proj2 (user_init_spec (lit " ab ") (lit "secret") None))) H1 H2).
Defined.

(** ** models.py: what the patterns accept *)

Section regex_semantics.

Implicit Types (r : regex) (s : str) (c : N) (p : N → bool).

Lemma nullable_matches r : nullable r = true ↔ matches r [].
Proof.
  split.
  - induction r; cbn; try done.
    + intros _. constructor.
    + intros [H1 H2]%andb_true_iff. apply (matches_cat _ _ [] []); auto.
    + intros [H|H]%orb_true_iff; [apply matches_alt_l | apply matches_alt_r]; auto.
    + intros _. constructor.
  - intros H. remember [] as s eqn:Hs.
    induction H as [|p c Hp|r1 r2 s1 s2 H1 IH1 H2 IH2|r1 r2 s H IH|r1 r2 s H IH
                    |r|r s1 s2 H1 IH1 H2 IH2]; cbn; try done.
    + apply app_eq_nil in Hs as [-> ->]. by rewrite IH1, IH2.
    + by rewrite IH.
    + rewrite IH by done. apply orb_true_r.
Qed.

Lemma matches_star_cons_inv r c s :
  matches (Star r) (c :: s) →
  ∃ s1 s2, s = s1 ++ s2 ∧ matches r (c :: s1) ∧ matches (Star r) s2.
Proof.
  intros H. remember (Star r) as r' eqn:Hr. remember (c :: s) as s' eqn:Hs.
  revert s Hs.
  induction H as [|p c' Hp|r1 r2 s1 s2 H1 IH1 H2 IH2|r1 r2 s0 H IH|r1 r2 s0 H IH
                  |r0|r0 s1 s2 H1 IH1 H2 IH2]; intros s Hs; try done.
  injection Hr as ->. destruct s1 as [|c1 s1].
  - cbn in Hs. by apply IH2.
  - cbn in Hs. injection Hs as -> <-. by exists s1, s2.
Qed.

Lemma matches_class_inv p s : matches (Class p) s ↔ ∃ c, s = [c] ∧ p c = true.
Proof.
  split.
  - inversion 1; subst. eauto.
  - intros (c & -> & Hc). by constructor.
Qed.

Lemma matches_cat_inv r1 r2 s :
  matches (Cat r1 r2) s ↔ ∃ s1 s2, s = s1 ++ s2 ∧ matches r1 s1 ∧ matches r2 s2.
Proof.
  split.
  - inversion 1; subst. eauto.
  - intros (s1 & s2 & -> & H1 & H2). by constructor.
Qed.

Lemma matches_alt_inv r1 r2 s : matches (Alt r1 r2) s ↔ matches r1 s ∨ matches r2 s.
Proof.
  split.
  - inversion 1; subst; auto.
  - intros [H|H]; [by apply matches_alt_l | by apply matches_alt_r].
Qed.

Lemma deriv_matches r c s : matches (deriv c r) s ↔ matches r (c :: s).
Proof.
  revert s. induction r as [| |p|r1 IH1 r2 IH2|r1 IH1 r2 IH2|r IH]; intros s; cbn.
  - split; inversion 1.
  - split; inversion 1.
  - rewrite matches_class_inv. destruct (p c) eqn:Hp.
    + split.
      * inversion 1; subst. by exists c.
      * intros (c' & [= -> ->] & _). constructor.
    + split; [inversion 1|]. intros (c' & [= -> ->] & ?). congruence.
  - assert (Hcat : matches (Cat (deriv c r1) r2) s
                   ↔ ∃ s1 s2, s = s1 ++ s2 ∧ matches r1 (c :: s1) ∧ matches r2 s2).
    { rewrite matches_cat_inv. by setoid_rewrite IH1. }
    assert (Hsplit : matches (Cat r1 r2) (c :: s)
                     ↔ (matches r1 [] ∧ matches r2 (c :: s))
                       ∨ ∃ s1 s2, s = s1 ++ s2 ∧ matches r1 (c :: s1) ∧ matches r2 s2).
    { rewrite matches_cat_inv. split.
      - intros ([|c1 s1] & s2 & Heq & H1 & H2); cbn in Heq.
        + left. by subst.
        + right. injection Heq as -> ->. by exists s1, s2.
      - intros [[H1 H2]|(s1 & s2 & -> & H1 & H2)].
        + by exists [], (c :: s).
        + by exists (c :: s1), s2. }
    rewrite Hsplit, <- nullable_matches. destruct (nullable r1) eqn:Hn.
    + rewrite matches_alt_inv, Hcat, IH2. tauto.
    + rewrite Hcat. split; [tauto|]. by intros [[? _]|?].
  - by rewrite !matches_alt_inv, IH1, IH2.
  - rewrite matches_cat_inv. split.
    + intros (s1 & s2 & -> & H1%IH & H2). by apply (matches_star_cons _ (c :: s1) s2).
    + intros (s1 & s2 & -> & H1 & H2)%matches_star_cons_inv.
      exists s1, s2. by rewrite IH.
Qed.

Lemma fullmatch_matches r s : fullmatch r s = true ↔ matches r s.
Proof.
  revert r. induction s as [|c s IH]; intros r; cbn.
  - apply nullable_matches.
  - by rewrite IH, deriv_matches.
Qed.

(** Repetitions of a character class. *)
Lemma matches_star_class p s : matches (Star (Class p)) s ↔ Forall (λ c, p c = true) s.
Proof.
  split.
  - intros H. remember (Star (Class p)) as r eqn:Hr.
    induction H as [|p' c Hp|r1 r2 s1 s2 H1 IH1 H2 IH2|r1 r2 s0 H IH|r1 r2 s0 H IH
                    |r0|r0 s1 s2 H1 IH1 H2 IH2]; try done.
    injection Hr as ->. apply Forall_app. split; [|by apply IH2].
    apply matches_class_inv in H1 as (c & -> & Hc). by repeat constructor.
  - induction 1 as [|c s Hc _ IH]; [constructor|].
    apply (matches_star_cons _ [c] s); [by constructor | done].
Qed.

Lemma matches_plus_class p s :
  matches (Plus (Class p)) s ↔ s ≠ [] ∧ Forall (λ c, p c = true) s.
Proof.
  unfold Plus. rewrite matches_cat_inv. split.
  - intros (s1 & s2 & -> & (c & -> & Hc)%matches_class_inv & H2%matches_star_class).
    split; [done | by constructor].
  - intros [Hne Hall]. destruct Hall as [|c s Hc Hs]; [done|].
    exists [c], s. split_and!; [done | by constructor | by apply matches_star_class].
Qed.

Lemma matches_times_class p n s :
  matches (Times n (Class p)) s ↔ length s = n ∧ Forall (λ c, p c = true) s.
Proof.
  revert s. induction n as [|n IH]; intros s; cbn [Times].
  - split.
    + inversion 1; subst. by split.
    + intros [Hlen _]. destruct s; [constructor | done].
  - rewrite matches_cat_inv. split.
    + intros (s1 & s2 & -> & (c & -> & Hc)%matches_class_inv & [Hlen Hall]%IH).
      split; [cbn; by rewrite Hlen | by constructor].
    + intros [Hlen Hall]. destruct Hall as [|c s Hc Hs]; [done|].
      exists [c], s. split_and!; [done | by constructor |]. apply IH.
      split; [by injection Hlen | done].
Qed.

Lemma matches_upto_class p n s :
  matches (UpTo n (Class p)) s ↔ (length s ≤ n)%nat ∧ Forall (λ c, p c = true) s.
Proof.
  revert s. induction n as [|n IH]; intros s; cbn [UpTo].
  - split.
    + inversion 1; subst. by split.
    + intros [Hlen _]. destruct s; [constructor | cbn in Hlen; lia].
  - unfold Opt. split.
    + inversion 1 as [| | |? ? ? H'|? ? ? H'| |]; subst.
      * inversion H'; subst. split; [cbn; lia | constructor].
      * apply matches_cat_inv in H'
          as (s1 & s2 & -> & (c & -> & Hc)%matches_class_inv & [Hlen Hall]%IH).
        split; [cbn; lia | by constructor].
    + intros [Hlen Hall]. destruct Hall as [|c s Hc Hs];
        [apply matches_alt_l; constructor|].
      apply matches_alt_r, matches_cat_inv. exists [c], s.
      split_and!; [done | by constructor |]. apply IH. split; [cbn in Hlen; lia | done].
Qed.

(** A stripped string does not end with a newline, so for it [$] holds at
    the end only. *)
Lemma re_match_stripped r s : strip s = s → re_match r s = fullmatch r s.
Proof.
  intros Hs. unfold re_match.
  pose proof (strip_last_ok s) as Hlast. rewrite Hs in Hlast.
  destruct (reverse s) as [|d t]; [apply orb_false_r|]. cbn in Hlast.
  destruct d as [|q]; [apply orb_false_r|].
  do 4 (destruct q as [q|q|]; try apply orb_false_r).
  discriminate Hlast.
Qed.

End regex_semantics.

(** X25: an ASCII roll is accepted exactly when, stripped and put in upper
    case, it is a non-empty string of the letters [A] to [Z], digits, [-]
    and [_]; that string is the validated roll. *)
Theorem validate_roll_shape (roll r : str) :
  ascii_str roll →
  Student._validate_roll roll = Ok r
  ↔ r = upper (strip roll) ∧ r ≠ [] ∧ Forall (λ c, roll_char c = true) r.
Proof.
  intros Ha. apply ascii_str_strip in Ha.
  unfold Student._validate_roll. rewrite is_empty_strip. cbn zeta.
  destruct (is_empty (strip roll)) eqn:Hne.
  { split; [done|]. intros (-> & Hr & _). by destruct (strip roll). }
  destruct (stripped_shape roll (upper (strip roll))) as [_ Hstrip];
    [by apply bind_shape; [apply upper_char_stable|] | done |].
  rewrite (re_match_stripped _ _ Hstrip).
  destruct (fullmatch _ _) eqn:Hm; cbn [negb].
  - apply fullmatch_matches, matches_plus_class in Hm as [Hr Hall].
    split; [by intros [= <-] | by intros (-> & _)].
  - split; [done|]. intros (-> & Hr & Hall).
    apply not_true_iff_false in Hm. destruct Hm.
    by apply fullmatch_matches, matches_plus_class.
Qed.

Lemma validate_roll_shape_witness :
  ascii_str (lit " cs-001 ")
  ∧ Student._validate_roll (lit " cs-001 ") = Ok (lit "CS-001")
  ∧ Forall (λ c, roll_char c = true) (lit "CS-001").
Proof.
  assert (Ha : ascii_str (lit " cs-001 ")) by (unfold ascii_str; cbv; repeat constructor).
  assert (H : Student._validate_roll (lit " cs-001 ") = Ok (lit "CS-001"))
    by (vm_compute; reflexivity).
  split_and!; [done..|].
  exact (proj2 (proj2 (proj1 (validate_roll_shape _ _ Ha) H))).
Defined.

(** X26: a phone is accepted exactly when it is empty or, stripped, consists
    of an optional [+] followed by 7 to 15 digits, white space characters,
    hyphens or parentheses; the stripped phone is the validated one. *)
Theorem validate_phone_shape (phone p : str) :
  Student._validate_phone phone = Ok p
  ↔ (phone = [] ∧ p = [])
    ∨ (phone ≠ [] ∧ p = strip phone
       ∧ ∃ sign rest,
           p = sign ++ rest ∧ (sign = [] ∨ sign = lit "+")
           ∧ (7 ≤ length rest ≤ 15)%nat ∧ Forall (λ c, phone_char c = true) rest).
Proof.
  unfold Student._validate_phone. destruct phone as [|c0 phone0]; cbn [is_empty].
  { split; [intros [= <-]; by left | by intros [[_ ->]|[? _]]]. }
  set (phone := c0 :: phone0). cbn zeta.
  rewrite (re_match_stripped _ _ (strip_idemp phone)).
  assert (Hshape : fullmatch Student.phone_pattern (strip phone) = true
            ↔ ∃ sign rest,
                strip phone = sign ++ rest ∧ (sign = [] ∨ sign = lit "+")
                ∧ (7 ≤ length rest ≤ 15)%nat ∧ Forall (λ c, phone_char c = true) rest).
  { rewrite fullmatch_matches. unfold Student.phone_pattern, Between, Opt.
    rewrite matches_cat_inv. split.
    - intros (sign & rest & Heq & Hsign & Hrest). exists sign, rest.
      apply matches_cat_inv in Hrest
        as (r1 & r2 & -> & [Hl1 Ha1]%matches_times_class & [Hl2 Ha2]%matches_upto_class).
      split_and!; [done| | | |].
      + apply matches_alt_inv in Hsign as [H|H].
        * inversion H. by left.
        * apply matches_class_inv in H as (c & -> & Hc). right.
          apply bool_decide_eq_true, list_elem_of_singleton in Hc. by subst.
      + rewrite length_app. lia.
      + rewrite length_app. cbn in Hl2. lia.
      + by apply Forall_app.
    - intros (sign & rest & Heq & Hsign & [Hl1 Hl2] & Hall). exists sign, rest.
      split_and!; [done| |].
      + apply matches_alt_inv. destruct Hsign as [->| ->]; [left; constructor|].
        right. by constructor.
      + apply matches_cat_inv. exists (take 7 rest), (drop 7 rest).
        rewrite take_drop. split_and!; [done| |].
        * apply matches_times_class. split; [rewrite length_take; lia|].
          by apply Forall_take.
        * apply matches_upto_class. split; [rewrite length_drop; cbn; lia|].
          by apply Forall_drop. }
  destruct (fullmatch _ _) eqn:Hm; cbn [negb].
  - split.
    + intros [= <-]. right. split_and!; [done..|]. by apply Hshape.
    + by intros [[? _]|(_ & -> & _)].
  - split; [done|]. intros [[? _]|(_ & -> & H)]; [done|].
    apply Hshape in H. congruence.
Qed.

(** X27: the validated form of an ASCII email has a non-empty local part of
    letters, digits and [._%+-], an [@], a non-empty domain of letters,
    digits, [.] and [-], a dot, and at least two letters. *)
Theorem validate_email_shape (email e : str) :
  ascii_str email → Student._validate_email email = Ok e →
  e = lower (strip email)
  ∧ ∃ local domain tld,
      e = local ++ lit "@" ++ domain ++ lit "." ++ tld
      ∧ local ≠ [] ∧ Forall (λ c, email_local_char c = true) local
      ∧ domain ≠ [] ∧ Forall (λ c, email_domain_char c = true) domain
      ∧ (2 ≤ length tld)%nat ∧ Forall (λ c, letter c = true) tld.
Proof.
  intros Ha. apply ascii_str_strip in Ha.
  unfold Student._validate_email. rewrite is_empty_strip. cbn zeta.
  destruct (is_empty (strip email)) eqn:Hne; [done|].
  destruct (stripped_shape email (lower (strip email))) as [_ Hstrip];
    [by apply bind_shape; [apply lower_char_stable|] | done |].
  rewrite (re_match_stripped _ _ Hstrip).
  destruct (fullmatch _ _) eqn:Hm; cbn [negb]; [|done].
  intros [= <-]. split; [done|].
  apply fullmatch_matches in Hm. unfold Student.email_pattern, AtLeast in Hm.
  apply matches_cat_inv in Hm as (local & s1 & -> & [? ?]%matches_plus_class & Hm).
  apply matches_cat_inv in Hm as (at_ & s2 & -> & (c1 & -> & Hc1)%matches_class_inv & Hm).
  apply matches_cat_inv in Hm as (domain & s3 & -> & [? ?]%matches_plus_class & Hm).
  apply matches_cat_inv in Hm as (dot & s4 & -> & (c2 & -> & Hc2)%matches_class_inv & Hm).
  apply matches_cat_inv in Hm
    as (t1 & t2 & -> & [Hl1 Ha1]%matches_times_class & Ha2%matches_star_class).
  apply bool_decide_eq_true, list_elem_of_singleton in Hc1, Hc2. subst c1 c2.
  exists local, domain, (t1 ++ t2). split_and!; try done.
  - rewrite length_app. lia.
  - by apply Forall_app.
Qed.

Lemma validate_email_shape_witness :
  ascii_str (lit " Ada@Example.COM ")
  ∧ Student._validate_email (lit " Ada@Example.COM ") = Ok (lit "ada@example.com")
  ∧ ∃ local domain tld,
      lit "ada@example.com" = local ++ lit "@" ++ domain ++ lit "." ++ tld
      ∧ (2 ≤ length tld)%nat.
Proof.
  assert (Ha : ascii_str (lit " Ada@Example.COM "))
    by (unfold ascii_str; cbv; repeat constructor).
  assert (H : Student._validate_email (lit " Ada@Example.COM ") = Ok (lit "ada@example.com"))
    by (vm_compute; reflexivity).
  split_and!; [done..|].
  destruct (proj2 (validate_email_shape _ _ Ha H))
    as (local & domain & tld & Heq & _ & _ & _ & _ & Hlen & _).
  by exists local, domain, tld.
Defined.

(** * Examples

    The embedding evaluated on inputs of [test_system.py] and on a few more. *)

Example ex_student_ok :
  Student.init (lit " john doe ") (lit "cs001") (lit "computer science")
    (lit "John@Example.COM") (lit "123-456-7890") None
  = Ok (Student.mk None (lit "John Doe") (lit "CS001") (lit "Computer Science")
          (lit "john@example.com") (lit "123-456-7890")).
Proof. vm_compute. reflexivity. Qed.

(** [Student("", "CS002", "CS", "invalid-email", "")]: the name is reported,
    not the email. *)
Example ex_student_first_error :
  Student.init [] (lit "CS002") (lit "CS") (lit "invalid-email") [] None
  = Raise (ValueError (lit "Name cannot be empty")).
Proof. reflexivity. Qed.

Example ex_title : title (lit "hello wORLD a1b o'neil") = lit "Hello World A1B O'Neil".
Proof. reflexivity. Qed.

Example ex_roll_pattern :
  (λ s, re_match Student.roll_pattern (lit s))
    <$> ["CS001"; "cs-1_a"; "CS 1"; ""; "EE_2-B"]%string
  = [true; false; false; false; true].
Proof. vm_compute. reflexivity. Qed.

Example ex_email_pattern :
  (λ s, re_match Student.email_pattern (lit s))
    <$> ["a@b.co"; "a@b.c"; "a.b%c+d-e@x-y.z.com"; "@b.co"; "a@b.c0m"; "a@b..co"]%string
  = [true; false; true; false; false; true].
Proof. vm_compute. reflexivity. Qed.

Example ex_phone_pattern :
  (λ s, re_match Student.phone_pattern (lit s))
    <$> ["1234567"; "+1234567"; "123456"; "(123) 456-7890"; "1234567890123456";
         "+123456789012345"; "++1234567"; ""]%string
  = [true; true; false; true; false; true; false; false].
Proof. vm_compute. reflexivity. Qed.

(** A newline that ends the string is accepted by [$]. *)
Example ex_dollar_newline : re_match Student.roll_pattern (lit "AB" ++ [10]) = true.
Proof. reflexivity. Qed.

(** Two rolls that differ in case only are one roll once validated, and the
    second [add_student] is refused. *)
Example ex_add_same_roll_other_case :
  let db0 := (Database.initialize_database (lit "t0") (Database.mk_store None None)).2 in
  ∃ s1 s2 db1,
    Student.init (lit "Ada") (lit "cs001") (lit "Physics") (lit "ada@example.com") [] None
    = Ok s1
    ∧ Student.init (lit "Bob") (lit "CS001") (lit "Physics") (lit "bob@example.com") [] None
      = Ok s2
    ∧ Database.add_student (lit "t1") s1 db0 = (Ok 1%Z, db1)
    ∧ Database.add_student (lit "t2") s2 db1
      = (Raise (Exception (lit "Student with roll number 'CS001' already exists")), db1).
Proof. do 3 eexists. split_and!; vm_compute; reflexivity. Qed.

(** The summary report of three students in two departments. *)
Example ex_summary_report :
  ReportGenerator.generate_summary_report (lit "2024-01-01 00:00:00")
    (λ count total, str_of_nat count ++ lit "/" ++ str_of_nat total)
    [ Student.mk None (lit "Alice") (lit "CS001") (lit "Computer Science")
        (lit "alice@example.com") [];
      Student.mk None (lit "Charlie") (lit "EE001") (lit "Electrical Engineering")
        (lit "charlie@example.com") [];
      Student.mk None (lit "Bob") (lit "CS002") (lit "Computer Science")
        (lit "bob@example.com") [] ]
  = join [10]
      [ repeat_char "=" 50;
        lit "STUDENT MANAGEMENT SYSTEM - SUMMARY REPORT";
        repeat_char "=" 50;
        lit "Generated on: 2024-01-01 00:00:00";
        [];
        lit "OVERVIEW:";
        lit "  Total Students: 3";
        lit "  Total Departments: 2";
        [];
        lit "STUDENTS BY DEPARTMENT:";
        repeat_char "-" 30;
        lit "  Computer Science: 2 students (2/3%)";
        lit "  Electrical Engineering: 1 students (1/3%)" ].
Proof. vm_compute. reflexivity. Qed.
